(** * Margen Pro VIII: the currency normaliser and the manifest loader

    A shallow embedding of [clean_currency], [load_data] and the scenario
    arithmetic of [app.py], and the properties of the specification that
    concern them.

    Conventions of the embedding.
    - A Python [str] is a list of Unicode code points ([N]); [u "..."]
      writes an ASCII literal.  A [bytes] object is a list of [Byte.byte].
    - A Python [float] is a binary64 value of Rocq's primitive type
      [float]; all NaNs are one value, [nan].  [float(s)] and [repr(f)] are
      written out on the integers: correctly rounded decimal parsing, and
      the shortest decimal that parses back.
    - Code that may raise returns a [result]; [try ... except Exception]
      is a [match] on it.
    - A table of pandas is a list of labelled columns of cells; what
      [pd.read_csv] and [pd.read_excel] make of an uploaded file is a
      field of the file.  Cleaned columns are columns of binary64
      numbers. *)

From Stdlib Require Import ZArith NArith List Bool String Ascii Floats Lia.
Import ListNotations.

Set Warnings "-inexact-float".

Set Implicit Arguments.

(** ** Text *)

Module Text.

Local Open Scope N_scope.

Definition char := N.
Definition str := list char.

(** An ASCII literal as a [str]. *)
Definition u (s : string) : str :=
  List.map N_of_ascii (list_ascii_of_string s).

Definition eqb (a b : str) : bool :=
  if list_eq_dec N.eq_dec a b then true else false.

(** [c.isspace()] for one code point: the interpreter's white-space set. *)
Definition isspace (c : char) : bool :=
  ((0x09 <=? c) && (c <=? 0x0D)) || ((0x1C <=? c) && (c <=? 0x20))
  || (c =? 0x85) || (c =? 0xA0) || (c =? 0x1680)
  || ((0x2000 <=? c) && (c <=? 0x200A))
  || (c =? 0x2028) || (c =? 0x2029) || (c =? 0x202F) || (c =? 0x205F)
  || (c =? 0x3000).

Fixpoint lstrip (s : str) : str :=
  match s with
  | c :: t => if isspace c then lstrip t else s
  | [] => []
  end.

Definition rstrip (s : str) : str := rev (lstrip (rev s)).

(** [s.strip()] *)
Definition strip (s : str) : str := rstrip (lstrip s).

Fixpoint is_prefix (p s : str) : bool :=
  match p, s with
  | [], _ => true
  | a :: p', b :: s' => (a =? b) && is_prefix p' s'
  | _ :: _, [] => false
  end.

(** [s.startswith(p)] and [s.endswith(p)] *)
Definition startswith (s p : str) : bool := is_prefix p s.
Definition endswith (s p : str) : bool := is_prefix (rev p) (rev s).

(** [s[1:-1]]: empty when [s] has fewer than two code points. *)
Definition slice_1_m1 (s : str) : str := removelast (tl s).

(** [s.replace(old, new)] for a one-character [old], the only use the
    program makes of it: every occurrence is replaced. *)
Definition replace (s : str) (old : char) (new : str) : str :=
  flat_map (fun c => if c =? old then new else [c]) s.

(** [needle in hay] *)
Fixpoint contains (needle hay : str) : bool :=
  is_prefix needle hay
  || match hay with
     | [] => false
     | _ :: t => contains needle t
     end.

(** [c.lower()].  ASCII capitals map to their small letters.  Among the
    other code points only U+0130 and U+212A have a lower-case form that
    contains an ASCII letter; the program only ever searches the result for
    ASCII needles, so the remaining (non-ASCII to non-ASCII) case mappings
    are left out. *)
Definition lower_char (c : char) : str :=
  if (0x41 <=? c) && (c <=? 0x5A) then [c + 0x20]
  else if c =? 0x130 then [0x69; 0x307]
  else if c =? 0x212A then [0x6B]
  else [c].

Definition lower (s : str) : str := flat_map lower_char s.

End Text.

Import Text.

(** ** Exceptions *)

Inductive exn_class :=
| ValueError | UnicodeDecodeError | AttributeError | KeyError | TypeError
| OtherError.

(** An exception carries its class and the text [str(e)] gives. *)
Record exn := Exn { exn_kind : exn_class; exn_msg : str }.

Inductive result (A : Type) :=
| Ok (a : A)
| Raise (e : exn).
Arguments Ok {A} a.
Arguments Raise {A} e.

Definition bind {A B} (r : result A) (k : A -> result B) : result B :=
  match r with
  | Ok a => k a
  | Raise e => Raise e
  end.

(** [try: body except Exception as e: handler e] *)
Definition try_except {A} (body : result A) (handler : exn -> result A) : result A :=
  match body with
  | Ok a => Ok a
  | Raise e => handler e
  end.

Declare Scope py_scope.
Delimit Scope py_scope with py.
Notation "x <- c ;; k" := (bind c (fun x => k))
  (at level 61, c at next level, right associativity) : py_scope.

(** ** Floating-point numbers *)

Module PyFloat.

Local Open Scope Z_scope.

(** The binary64 number nearest to [mant * 10 ^ exp10] (ties to even), with
    the sign [neg]; [mant] is not negative.  A negative exponent is a
    quotient: it is taken with 64 bits or more and one sticky bit below them
    for the remainder, which rounds as the exact quotient does. *)
Definition of_decimal (neg : bool) (mant exp10 : Z) : float :=
  let sgn (m : Z) := if neg then - m else m in
  if mant =? 0 then (if neg then neg_zero else zero)
  else if 0 <=? exp10 then
    SF2Prim (binary_normalize prec emax (sgn (mant * 10 ^ exp10)) 0 neg)
  else
    let d := 10 ^ (- exp10) in
    let k := Z.max 0 (Z.log2 d - Z.log2 mant + 64) in
    let q := (mant * 2 ^ k) / d in
    let sticky := if (mant * 2 ^ k) mod d =? 0 then 0 else 1 in
    SF2Prim (binary_normalize prec emax (sgn (2 * q + sticky)) (- k - 1) neg).

(** An integer as a binary64 number: the nearest one. *)
Definition of_int (n : Z) : float :=
  of_decimal (n <? 0) (Z.abs n) 0.

Definition is_digit (c : char) : bool := ((0x30 <=? c) && (c <=? 0x39))%N.

Definition is_underscore (c : char) : bool := (c =? 0x5F)%N.

(** Underscores are dropped when each stands between two digits; [prev] is
    the code point before [s] (0 at the start). *)
Fixpoint drop_underscores (prev : char) (s : str) : option str :=
  match s with
  | [] => if is_underscore prev then None else Some []
  | c :: t =>
      if is_underscore c then
        if is_digit prev then drop_underscores c t else None
      else if is_underscore prev && negb (is_digit c) then None
      else option_map (cons c) (drop_underscores c t)
  end.

(** An optional sign: [true] for a minus. *)
Definition scan_sign (s : str) : bool * str :=
  match s with
  | c :: t =>
      if (c =? 0x2D)%N then (true, t)
      else if (c =? 0x2B)%N then (false, t)
      else (false, s)
  | [] => (false, [])
  end.

(** The leading digits of [s], read into [acc]; the count is added to [n]. *)
Fixpoint scan_digits (acc n : Z) (s : str) : Z * Z * str :=
  match s with
  | c :: t =>
      if is_digit c then scan_digits (10 * acc + Z.of_N (c - 0x30)) (n + 1) t
      else (acc, n, s)
  | [] => (acc, n, [])
  end.

(** The digits after a point, when there is one. *)
Definition scan_fraction (ip : Z) (s : str) : Z * Z * str :=
  match s with
  | c :: t => if (c =? 0x2E)%N then scan_digits ip 0 t else (ip, 0, s)
  | [] => (ip, 0, [])
  end.

(** An exponent that ends the literal: [e] or [E], a sign, digits. *)
Definition scan_exponent (s : str) : option Z :=
  match s with
  | [] => Some 0
  | c :: t =>
      if (c =? 0x65)%N || (c =? 0x45)%N then
        let '(eneg, t1) := scan_sign t in
        let '(ev, ne, t2) := scan_digits 0 0 t1 in
        match t2 with
        | [] => if ne =? 0 then None else Some (if eneg then - ev else ev)
        | _ :: _ => None
        end
      else None
  end.

(** A decimal literal: sign, digits with an optional point (one digit at
    least), an optional exponent, and nothing after it. *)
Definition parse_decimal (s : str) : option float :=
  let '(neg, s1) := scan_sign s in
  let '(ip, ni, s2) := scan_digits 0 0 s1 in
  let '(m, nf, s3) := scan_fraction ip s2 in
  if ni + nf =? 0 then None
  else
    match scan_exponent s3 with
    | Some e => Some (of_decimal neg m (e - nf))
    | None => None
    end.

(** Small letters for the ASCII capitals. *)
Definition ascii_lower (s : str) : str :=
  List.map (fun c => if ((0x41 <=? c) && (c <=? 0x5A))%N then (c + 0x20)%N else c) s.

(** [inf], [infinity] and [nan] in any letter case, with an optional sign. *)
Definition parse_inf_nan (s : str) : option float :=
  let '(neg, s1) := scan_sign s in
  let w := ascii_lower s1 in
  if Text.eqb w (u "inf") || Text.eqb w (u "infinity")
  then Some (if neg then neg_infinity else infinity)
  else if Text.eqb w (u "nan") then Some nan
  else None.

Definition could_not_convert : exn :=
  Exn ValueError (u "could not convert string to float").

(** [float(s)] for a [str]: white space around the literal is ignored.
    The digits are the ASCII digits; the decimal digits of other scripts,
    which the interpreter reads as well, are not modelled. *)
Definition py_float (s : str) : result float :=
  match drop_underscores 0%N (strip s) with
  | None => Raise could_not_convert
  | Some t =>
      match parse_decimal t with
      | Some f => Ok f
      | None =>
          match parse_inf_nan t with
          | Some f => Ok f
          | None => Raise could_not_convert
          end
      end
  end.

End PyFloat.

Import PyFloat.


(** ** Byte sequences *)

Module Codec.

Local Open Scope N_scope.

Definition is_cont (b : N) : bool := (0x80 <=? b) && (b <=? 0xBF).

(** The second byte of a three-byte sequence: no overlong form, no surrogate. *)
Definition second_of_3 (b0 b1 : N) : bool :=
  if b0 =? 0xE0 then (0xA0 <=? b1) && (b1 <=? 0xBF)
  else if b0 =? 0xED then (0x80 <=? b1) && (b1 <=? 0x9F)
  else is_cont b1.

(** The second byte of a four-byte sequence: no overlong form, at most U+10FFFF. *)
Definition second_of_4 (b0 b1 : N) : bool :=
  if b0 =? 0xF0 then (0x90 <=? b1) && (b1 <=? 0xBF)
  else if b0 =? 0xF4 then (0x80 <=? b1) && (b1 <=? 0x8F)
  else is_cont b1.

(** Strict UTF-8: [None] at the first ill-formed sequence. *)
Fixpoint utf8_code_points (l : list N) : option str :=
  match l with
  | [] => Some []
  | b0 :: r0 =>
      if b0 <? 0x80 then option_map (cons b0) (utf8_code_points r0)
      else
        match r0 with
        | [] => None
        | b1 :: r1 =>
            if (0xC2 <=? b0) && (b0 <=? 0xDF) then
              if is_cont b1
              then option_map (cons ((b0 - 0xC0) * 64 + (b1 - 0x80)))
                              (utf8_code_points r1)
              else None
            else
              match r1 with
              | [] => None
              | b2 :: r2 =>
                  if (0xE0 <=? b0) && (b0 <=? 0xEF) then
                    if second_of_3 b0 b1 && is_cont b2
                    then option_map
                           (cons ((b0 - 0xE0) * 4096 + (b1 - 0x80) * 64 + (b2 - 0x80)))
                           (utf8_code_points r2)
                    else None
                  else
                    match r2 with
                    | [] => None
                    | b3 :: r3 =>
                        if (0xF0 <=? b0) && (b0 <=? 0xF4) then
                          if second_of_4 b0 b1 && is_cont b2 && is_cont b3
                          then option_map
                                 (cons ((b0 - 0xF0) * 262144 + (b1 - 0x80) * 4096
                                        + (b2 - 0x80) * 64 + (b3 - 0x80)))
                                 (utf8_code_points r3)
                          else None
                        else None
                    end
              end
        end
  end.

Definition cannot_decode : exn :=
  Exn UnicodeDecodeError (u "'utf-8' codec can't decode bytes").

(** [b.decode('utf-8')] *)
Definition decode_utf8 (b : list Byte.byte) : result str :=
  match utf8_code_points (List.map Byte.to_N b) with
  | Some s => Ok s
  | None => Raise cannot_decode
  end.

(** [b.decode('latin1', errors='ignore')]: every byte is a code point of
    Latin-1, so the error handler has nothing to drop. *)
Definition decode_latin1_ignore (b : list Byte.byte) : str :=
  List.map Byte.to_N b.

End Codec.

Import Codec.

(** ** Cell values *)

(** What a cell of a table holds.  [VNone] stands for the null markers
    [None], [pd.NA] and [pd.NaT]; [VFloat nan] is [np.nan]; [VOther] is a
    scalar of another type (a date, say), of which only the type name is
    kept. *)
Inductive value :=
| VNone
| VBool (b : bool)
| VInt (n : Z)
| VFloat (f : float)
| VStr (s : str)
| VBytes (b : list Byte.byte)
| VOther (type_name : str).

(** [pd.isna(x)] on a scalar. *)
Definition pd_isna (x : value) : result bool :=
  match x with
  | VNone => Ok true
  | VFloat f => Ok (is_nan f)
  | _ => Ok false
  end.

(** The outcomes of the normaliser, as the specification names them. *)
Definition Missing : value := VFloat nan.
Definition Number (f : float) : value := VFloat f.
Definition ResidualText (s : str) : value := VStr s.

(** ** The currency normaliser *)

Definition dollar : char := 0x24%N.
Definition euro : char := 0x20AC%N.
Definition pound : char := 0xA3%N.
Definition comma : char := 0x2C%N.
Definition percent : char := 0x25%N.
Definition nbsp : char := 0xA0%N.
Definition unicode_minus : char := 0x2212%N.

Definition stripped_symbols : list char :=
  [dollar; euro; pound; comma; percent; nbsp].

(** The text branch of [clean_currency], from [s = x.strip()] on. *)
Definition clean_text (x : str) : result value :=
  let s := strip x in
  if Text.eqb s [] then Ok (VFloat nan)
  else
    let negative := startswith s (u "(") && endswith s (u ")") in
    let s := if negative then strip (slice_1_m1 s) else s in
    let s := fold_left (fun s ch => replace s ch []) stripped_symbols s in
    let s := replace s unicode_minus (u "-") in
    let s := strip s in
    if existsb (Text.eqb s) [ []; u "--"; u "-" ] then Ok (VFloat nan)
    else
      try_except
        (val <- py_float s ;;
         Ok (VFloat (if negative then - val else val)))%py
        (fun _ => Ok (VStr s)).

Definition clean_currency (x : value) : result value :=
  match pd_isna x with
  | Ok true => Ok (VFloat nan)
  | _ =>
      let x :=
        match x with
        | VBytes b =>
            match decode_utf8 b with
            | Ok s => VStr s
            | Raise _ => VStr (decode_latin1_ignore b)
            end
        | _ => x
        end in
      match x with
      | VStr s => clean_text s
      | _ => Ok x
      end
  end.


(** ** Tables *)

(** A column label: text, or another object (a number or a date of a
    spreadsheet header), of which only the type name matters. *)
Inductive label :=
| LText (s : str)
| LOther (type_name : str).

(** A table, column by column, in column order; the columns have one
    length.  [L] is the type of the labels. *)
Definition frame (L : Type) := list (L * list value).

Definition frame_labels {L} (df : frame L) : list L := List.map fst df.

(** [c.strip()] on a label: only text has the method. *)
Definition label_strip (c : label) : result str :=
  match c with
  | LText s => Ok (strip s)
  | LOther t =>
      Raise (Exn AttributeError
               (u "'" ++ t ++ u "' object has no attribute 'strip'"))
  end.

(** [df.columns = [c.strip() for c in df.columns]] *)
Fixpoint normalize_headers (df : frame label) : result (frame str) :=
  match df with
  | [] => Ok []
  | (c, cells) :: rest =>
      (c' <- label_strip c ;;
       rest' <- normalize_headers rest ;;
       Ok ((c', cells) :: rest'))%py
  end.

(** What [df[c]] yields: the column under [c] when one column has this
    label, and the table of the columns under [c] when several have it (two
    labels that differ by white space are the same once trimmed). *)
Inductive item :=
| Series (cells : list value)
| DataFrame (columns : frame str).

(** [df[c]] where [c] is a label found by the search, or [None]. *)
Definition get_item (df : frame str) (c : option str) : result item :=
  match c with
  | Some c =>
      match filter (fun col => Text.eqb (fst col) c) df with
      | [] => Raise (Exn KeyError c)
      | [(_, cells)] => Ok (Series cells)
      | columns => Ok (DataFrame columns)
      end
  | None => Raise (Exn KeyError (u "None"))
  end.

(** [df[c] = cells]: every column under [c] is replaced, and when there is
    none the column is added at the end. *)
Definition set_column (df : frame str) (c : str) (cells : list value) : frame str :=
  if existsb (fun col => Text.eqb (fst col) c) df
  then List.map (fun col => if Text.eqb (fst col) c then (fst col, cells) else col) df
  else df ++ [(c, cells)].

(** ** Numeric coercion *)

Local Open Scope float_scope.

(** One element of [pd.to_numeric(..., errors='coerce')]: a number stays,
    text is parsed, and what is not a number becomes NaN.  The result is
    taken as a binary64 number whatever the type pandas infers for the
    column. *)
Definition to_numeric_coerce (v : value) : float :=
  match v with
  | VFloat f => f
  | VInt n => of_int n
  | VBool b => if b then 1 else 0
  | VStr s => match py_float s with Ok f => f | Raise _ => nan end
  | VNone | VBytes _ | VOther _ => nan
  end.

(** One element of [.fillna(0)] *)
Definition fillna0 (f : float) : float := if is_nan f then 0 else f.

(** [series.apply(clean_currency)] *)
Fixpoint apply_clean (cells : list value) : result (list value) :=
  match cells with
  | [] => Ok []
  | x :: rest =>
      (y <- clean_currency x ;;
       ys <- apply_clean rest ;;
       Ok (y :: ys))%py
  end.

(** [pd.to_numeric(cells.apply(clean_currency), errors='coerce').fillna(0)] *)
Definition clean_column (cells : list value) : result (list float) :=
  (ys <- apply_clean cells ;;
   Ok (List.map (fun y => fillna0 (to_numeric_coerce y)) ys))%py.

(** The same expression on what [df[c]] yields.  On a table, [apply] hands
    whole columns to [clean_currency], which returns them as they are (the
    test on [pd.isna] raises and is passed over, and a column is neither
    bytes nor text), and [pd.to_numeric] refuses the table. *)
Definition clean_item (x : item) : result (list float) :=
  match x with
  | Series cells => clean_column cells
  | DataFrame _ =>
      Raise (Exn TypeError (u "arg must be a list, tuple, 1-d array, or Series"))
  end.

(** [series.sum()], taken in row order (the blocked summation of numpy,
    which may round a long column differently, and the skipping of NaN
    elements are not modelled). *)
Definition series_sum (l : list float) : float := fold_left add l 0.

(** The product of two columns, element by element. *)
Fixpoint series_mul (a b : list float) : list float :=
  match a, b with
  | x :: a', y :: b' => (x * y) :: series_mul a' b'
  | _, _ => []
  end.

(** ** The manifest loader *)

Inductive status := OK | ERROR | CRITICAL_ERROR.

(** The [Details] text: empty, the message on the missing columns with the
    list of the labels found, or the text of an exception. *)
Inductive details :=
| NoDetails
| MissingColumns (found : list str)
| ExceptionText (msg : str).

Record Summary := {
  Filename : str;
  Status : status;
  Details : details;
  Items : float;
  Variety : nat;
  Total_Cost : float;
  Total_Retail : float;
  Raw_Data : frame str
}.

(** An uploaded file: its name, and what each reader of pandas makes of its
    content. *)
Record UploadedFile := {
  name : str;
  read_csv_utf8_sig : result (frame label);
  read_csv_latin1 : result (frame label);
  read_excel : result (frame label)
}.

Definition read_table (file : UploadedFile) : result (frame label) :=
  if endswith (name file) (u ".csv") then
    try_except (read_csv_utf8_sig file) (fun _ => read_csv_latin1 file)
  else read_excel file.

(** Truth value of [None] or a text. *)
Definition truthy (c : option str) : bool :=
  match c with
  | Some (_ :: _) => true
  | _ => false
  end.

(** [needle in c.lower()] *)
Definition has (needle : string) (c : str) : bool :=
  contains (u needle) (lower c).

(** [next((c for c in columns if p c), None)] *)
Definition next_or_none (p : str -> bool) (columns : list str) : option str :=
  find p columns.

Definition resolve_qty (columns : list str) : option str :=
  next_or_none (has "qty") columns.

Definition resolve_retail (columns : list str) : option str :=
  let col_retail := next_or_none (has "unit retail") columns in
  if negb (truthy col_retail)
  then next_or_none (fun c => has "retail" c && negb (has "ext" c)) columns
  else col_retail.

Definition resolve_ext_cost (columns : list str) : option str :=
  let col_ext_cost := next_or_none (fun c => has "ext" c && has "retail" c) columns in
  if negb (truthy col_ext_cost)
  then next_or_none (fun c => has "cost" c && has "ext" c) columns
  else col_ext_cost.

Definition resolve_desc (columns : list str) : option str :=
  next_or_none (fun c => has "desc" c || has "item" c || has "product" c) columns.

Definition as_series (l : list float) : list value := List.map VFloat l.

(** The summary of a file that is not loaded: the aggregates are 0 and the
    table is the empty [pd.DataFrame()]. *)
Definition empty_summary (file : UploadedFile) (st : status) (d : details) : Summary :=
  {| Filename := name file;
     Status := st;
     Details := d;
     Items := 0; Variety := 0; Total_Cost := 0; Total_Retail := 0;
     Raw_Data := [] |}.

(** The body of the [try] of [load_data], for one file. *)
Definition process_file (file : UploadedFile) : result Summary :=
  (raw <- read_table file ;;
   df <- normalize_headers raw ;;
   let col_qty := resolve_qty (frame_labels df) in
   let col_retail := resolve_retail (frame_labels df) in
   let col_ext_cost := resolve_ext_cost (frame_labels df) in
   if negb (forallb truthy [col_qty; col_retail; col_ext_cost]) then
     Ok (empty_summary file ERROR (MissingColumns (frame_labels df)))
   else
     qty_cells <- get_item df col_qty ;;
     Qty_Clean <- clean_item qty_cells ;;
     let df := set_column df (u "Qty_Clean") (as_series Qty_Clean) in
     retail_cells <- get_item df col_retail ;;
     Retail_Clean <- clean_item retail_cells ;;
     let df := set_column df (u "Retail_Clean") (as_series Retail_Clean) in
     cost_cells <- get_item df col_ext_cost ;;
     Cost_Clean <- clean_item cost_cells ;;
     let df := set_column df (u "Cost_Clean") (as_series Cost_Clean) in
     let Total_Retail_Value := series_mul Qty_Clean Retail_Clean in
     let df := set_column df (u "Total_Retail_Value") (as_series Total_Retail_Value) in
     let variety_count := List.length (filter (fun q => 0 <? q) Qty_Clean) in
     Ok {| Filename := name file;
           Status := OK;
           Details := NoDetails;
           Items := series_sum Qty_Clean;
           Variety := variety_count;
           Total_Cost := series_sum Cost_Clean;
           Total_Retail := series_sum Total_Retail_Value;
           Raw_Data := df |})%py.

(** One turn of the loop: the summary appended for [file]. *)
Definition load_one (file : UploadedFile) : result Summary :=
  try_except (process_file file)
    (fun e => Ok (empty_summary file CRITICAL_ERROR (ExceptionText (exn_msg e)))).

(** [load_data]: the loop over the files, appending to [all_data]. *)
Definition load_data (uploaded_files : list UploadedFile) : result (list Summary) :=
  fold_left
    (fun acc file =>
       (all_data <- acc ;;
        summary <- load_one file ;;
        Ok (all_data ++ [summary]))%py)
    uploaded_files (Ok []).

(** ** The text of a number *)

Module PyStr.

Local Open Scope Z_scope.

(** The decimal digits of [n], written before [tail]; [fuel] bounds their
    number. *)
Fixpoint digits_before (fuel : nat) (n : Z) (tail : str) : str :=
  match fuel with
  | O => tail
  | S fuel' =>
      let tail' := (0x30 + Z.to_N (n mod 10))%N :: tail in
      if n <? 10 then tail' else digits_before fuel' (n / 10) tail'
  end.

(** The decimal digits of a natural number. *)
Definition decimal (n : Z) : str :=
  digits_before (S (Z.to_nat (Z.log2 n))) n [].

(** [str(n)] for an integer. *)
Definition int_str (n : Z) : str :=
  if n <? 0 then u "-" ++ decimal (- n) else decimal n.

(** The exponent of the leading decimal digit of [num / den]. *)
Definition leading_exponent (num den : Z) : Z :=
  if den <=? num then Z.of_nat (List.length (decimal (num / den))) - 1
  else
    let d := Z.of_nat (List.length (decimal (den / num))) in
    if den <=? num * 10 ^ (d - 1) then - (d - 1) else - d.

(** The two decimals of [k] digits around [num / den], as an integer and
    the exponent of its last digit, the nearer first (the even one first
    when they are equally near); the decimal alone when it is exact. *)
Definition neighbours (num den x : Z) (k : nat) : list (Z * Z) :=
  let q := x - Z.of_nat k + 1 in
  let sn := if 0 <=? q then num else num * 10 ^ (- q) in
  let sd := if 0 <=? q then den * 10 ^ q else den in
  let lo := sn / sd in
  let r := sn mod sd in
  if r =? 0 then [(lo, q)]
  else if (2 * r <? sd) || ((2 * r =? sd) && Z.even lo)
       then [(lo, q); (lo + 1, q)]
       else [(lo + 1, q); (lo, q)].

(** The decimals tried for the finite number [m * 2 ^ e]: one digit first,
    then two, up to seventeen. *)
Definition shortest_first (m : positive) (e : Z) : list (Z * Z) :=
  let num := if 0 <=? e then Zpos m * 2 ^ e else Zpos m in
  let den := if 0 <=? e then 1 else 2 ^ (- e) in
  let x := leading_exponent num den in
  flat_map (neighbours num den x) (seq 1 17).

(** Zeros at the end of the digits go into the exponent. *)
Fixpoint drop_zeros (fuel : nat) (d q : Z) : Z * Z :=
  match fuel with
  | O => (d, q)
  | S fuel' =>
      if (d mod 10 =? 0) && negb (d =? 0) then drop_zeros fuel' (d / 10) (q + 1)
      else (d, q)
  end.

Definition zeros (n : Z) : str := repeat 0x30%N (Z.to_nat n).

(** The text of the decimal [d * 10 ^ q] as [repr] lays it out: plain
    when the point falls within 16 digits before and 4 zeros after it, with
    an exponent of two digits or more otherwise. *)
Definition layout (d q : Z) : str :=
  let '(d, q) := drop_zeros 20 d q in
  let ds := decimal d in
  let n := Z.of_nat (List.length ds) in
  let decpt := n + q in
  if (decpt <=? -4) || (16 <? decpt) then
    let e := decpt - 1 in
    let mant :=
      match ds with
      | c :: (_ :: _) => c :: 0x2E%N :: tl ds
      | _ => ds
      end in
    let es := decimal (Z.abs e) in
    mant ++ u "e" ++ (if e <? 0 then u "-" else u "+")
         ++ (if Z.abs e <? 10 then u "0" else []) ++ es
  else if decpt <=? 0 then u "0." ++ zeros (- decpt) ++ ds
  else if n <=? decpt then ds ++ zeros (decpt - n) ++ u ".0"
  else firstn (Z.to_nat decpt) ds ++ u "." ++ skipn (Z.to_nat decpt) ds.

Definition signed (neg : bool) (s : str) : str :=
  if neg then u "-" ++ s else s.

(** The decimal that is [m * 2 ^ e] exactly: an integer, or an integer and
    a negative exponent. *)
Definition exact_decimal (m : positive) (e : Z) : str :=
  if 0 <=? e then decimal (Zpos m * 2 ^ e)
  else decimal (Zpos m * 5 ^ (- e)) ++ u "e-" ++ decimal (- e).

(** The texts tried for a number, in order: for a finite number other than
    zero the decimals of one to seventeen digits, and after them its exact
    decimal. *)
Definition renderings (f : float) : list str :=
  match Prim2SF f with
  | S754_nan => [u "nan"]
  | S754_infinity s => [signed s (u "inf")]
  | S754_zero s => [signed s (u "0.0")]
  | S754_finite s m e =>
      List.map (fun dq => signed s (layout (fst dq) (snd dq))) (shortest_first m e)
      ++ [signed s (exact_decimal m e)]
  end.

(** [float] reads [r] as [f] again. *)
Definition reads_back (f : float) (r : str) : bool :=
  match py_float r with
  | Ok g => Leibniz.eqb g f
  | Raise _ => false
  end.

(** [repr(f)], which is [str(f)]: the shortest decimal that [float] reads
    back as [f], the nearest to [f] among the shortest.  Seventeen digits
    are enough for every binary64 number, so that the search ends before
    the exact decimal, which is there to end it in any case. *)
Definition float_repr (f : float) : option str :=
  find (reads_back f) (renderings f).

End PyStr.

Import PyStr.

(** [str(v)] for the values the normaliser returns; the text of a byte
    sequence or of an object of another type is not modelled. *)
Definition py_str (v : value) : option str :=
  match v with
  | VFloat f => float_repr f
  | VInt n => Some (int_str n)
  | VBool b => Some (if b then u "True" else u "False")
  | VStr s => Some s
  | VNone => Some (u "None")
  | VBytes _ | VOther _ => None
  end.

(** The integer a number is, when it is one. *)
Definition exact_integer (f : float) : option Z :=
  match Prim2SF f with
  | S754_zero _ => Some 0%Z
  | S754_finite s m e =>
      let sign (z : Z) := if s then (- z)%Z else z in
      if (0 <=? e)%Z then Some (sign (Zpos m * 2 ^ e)%Z)
      else if (Zpos m mod 2 ^ (- e) =? 0)%Z then Some (sign (Zpos m / 2 ^ (- e))%Z)
      else None
  | S754_infinity _ | S754_nan => None
  end.

(** A cell the normaliser returns as a number: a float that is not NaN,
    an integer or a Boolean. *)
Definition is_number (v : value) : bool :=
  match v with
  | VFloat f => negb (is_nan f)
  | VInt _ | VBool _ => true
  | _ => false
  end.

Definition as_integer (v : value) : option Z :=
  match v with
  | VInt n => Some n
  | VBool b => Some (if b then 1 else 0)%Z
  | VFloat f => exact_integer f
  | _ => None
  end.

(** [a == b] for two numbers: integers and floats compare by their exact
    values. *)
Definition same_number (a b : value) : bool :=
  match a, b with
  | VFloat x, VFloat y => x =? y
  | _, _ =>
      is_number a && is_number b
      && match as_integer a, as_integer b with
         | Some n, Some m => (n =? m)%Z
         | _, _ => false
         end
  end.

(** ** The scenario arithmetic *)

(** The settings of the side bar: the sale price in per cent of the retail
    price, and the freight and other costs of one lot. *)
Record Settings := {
  discount_scenario : Z;
  freight_cost : float;
  misc_cost : float
}.

Record Metrics := {
  total_expenses : float;
  projected_revenue : float;
  projected_profit : float;
  roi : float
}.

(** [df_summary[df_summary['Status'] == "OK"]] *)
Definition valid_packages (df_summary : list Summary) : list Summary :=
  filter (fun s => match Status s with OK => true | _ => false end) df_summary.

(** The figures of the dashboard for the valid packages [packages], which
    the program computes when there is one at least. *)
Definition scenario (st : Settings) (packages : list Summary) : Metrics :=
  let num_packages := of_int (Z.of_nat (List.length packages)) in
  let total_freight := freight_cost st * num_packages in
  let total_misc := misc_cost st * num_packages in
  let total_purchase_cost := series_sum (List.map Total_Cost packages) in
  let total_retail_value := series_sum (List.map Total_Retail packages) in
  let projected_revenue := total_retail_value * (of_int (discount_scenario st) / 100) in
  let total_expenses := total_purchase_cost + total_freight + total_misc in
  let projected_profit := projected_revenue - total_expenses in
  let roi :=
    if 0 <? total_expenses then (projected_profit / total_expenses) * 100 else 0 in
  {| total_expenses := total_expenses;
     projected_revenue := projected_revenue;
     projected_profit := projected_profit;
     roi := roi |}.

(** One row of the comparison table: revenue, net profit and ROI of a
    file; the division has no guard here. *)
Definition display_row (st : Settings) (p : Summary) : float * float * float :=
  let Projected_Revenue := Total_Retail p * (of_int (discount_scenario st) / 100) in
  let Net_Profit := Projected_Revenue - Total_Cost p - (freight_cost st + misc_cost st) in
  let ROI := (Net_Profit / (Total_Cost p + freight_cost st + misc_cost st)) * 100 in
  (Projected_Revenue, Net_Profit, ROI).

(** What the page shows below the uploader: the welcome box, the warning
    that no file could be processed, or the dashboard with its figures and
    the rows of the comparison table. *)
Inductive screen :=
| Welcome
| Warning
| Dashboard (m : Metrics) (rows : list (float * float * float)).

(** The body of the page from [if uploaded_files:] on. *)
Definition analysis (st : Settings) (uploaded_files : list UploadedFile) : result screen :=
  match uploaded_files with
  | _ :: _ =>
      (df_summary <- load_data uploaded_files ;;
       let valid := valid_packages df_summary in
       match valid with
       | _ :: _ => Ok (Dashboard (scenario st valid) (List.map (display_row st) valid))
       | [] => Ok Warning
       end)%py
  | [] => Ok Welcome
  end.

(** * The vocabulary of the statements *)

(** The symbols are removed wherever they stand. *)
Definition remove_symbols (s : str) : str :=
  filter (fun c => negb (existsb (N.eqb c) stripped_symbols)) s.

(** The string [clean_currency] hands to [float], from the string left
    once the parentheses are dealt with. *)
Definition scrub (s : str) : str :=
  strip (replace (remove_symbols s) unicode_minus (u "-")).

(** What becomes of a string once scrubbed, under the sign flag. *)
Definition convert (negative : bool) (s : str) : value :=
  if existsb (Text.eqb s) [ []; u "--"; u "-" ] then Missing
  else
    match py_float s with
    | Ok val => Number (if negative then - val else val)
    | Raise _ => ResidualText s
    end.

(** The test for a negative written in parentheses. *)
Definition parenthesised (s : str) : bool :=
  startswith s (u "(") && endswith s (u ")").

(** The string handed to [float] for the text [x]: [x] trimmed, the
    wrapping parentheses taken off, and the rest scrubbed. *)
Definition cleaned (x : str) : str :=
  let s := strip x in
  scrub (if parenthesised s then strip (slice_1_m1 s) else s).

(** The characters of a literal [float] accepts: digits, ASCII letters,
    the signs, the point and the underscore. *)
Definition literal_char (c : char) : bool :=
  (is_digit c
   || ((0x41 <=? c) && (c <=? 0x5A)) || ((0x61 <=? c) && (c <=? 0x7A))
   || (c =? 0x2B) || (c =? 0x2D) || (c =? 0x2E) || (c =? 0x5F))%N.

(** [m] followed by [j] zero bits. *)
Fixpoint shift (j : nat) (m : positive) : positive :=
  match j with
  | O => m
  | S k => xO (shift k m)
  end.

(** A character that is not an underscore. *)
Definition no_underscore (c : char) : bool := negb (is_underscore c).

(** The label [c] contains [needle], letter case apart. *)
Definition mentions (needle : string) (c : str) : Prop :=
  exists pre suf, lower c = pre ++ u needle ++ suf.

(** [r] is the first element of [cols], in order, that satisfies [P];
    [None] when there is none. *)
Inductive first_such (P : str -> Prop) : list str -> option str -> Prop :=
| first_none cols :
    Forall (fun c => ~ P c) cols -> first_such P cols None
| first_some before c after :
    Forall (fun c => ~ P c) before -> P c ->
    first_such P (before ++ c :: after) (Some c).

(** The table of a file that parses: the file is read and its headers are
    trimmed (steps 1 and 2 of the loader) without an exception. *)
Definition parsed_table (file : UploadedFile) : result (frame str) :=
  (raw <- read_table file ;; normalize_headers raw)%py.

(** The summary [load_data] appends for a file. *)
Definition summary_of (file : UploadedFile) : Summary :=
  match process_file file with
  | Ok s => s
  | Raise e => empty_summary file CRITICAL_ERROR (ExceptionText (exn_msg e))
  end.

(** The value the normaliser returns for the text [x]. *)
Definition text_outcome (x : str) : value :=
  if Text.eqb (strip x) [] then Missing
  else convert (parenthesised (strip x)) (cleaned x).

(** The value the normaliser returns for the cell [x]. *)
Definition outcome (x : value) : value :=
  match x with
  | VNone => Missing
  | VFloat f => if is_nan f then Missing else x
  | VStr s => text_outcome s
  | VBytes b =>
      text_outcome (match decode_utf8 b with
                    | Ok s => s
                    | Raise _ => decode_latin1_ignore b
                    end)
  | _ => x
  end.

(** A number with its sign changed; text is left as it is. *)
Definition negate (v : value) : value :=
  match v with
  | VFloat f => VFloat (- f)
  | _ => v
  end.

(** The ASCII minus for the Unicode minus sign. *)
Definition ascii_minus (c : char) : char :=
  if (c =? unicode_minus)%N then 0x2D%N else c.

(** The first character of a string, when there is one, is not white space. *)
Definition starts_clean (s : str) : bool :=
  match s with
  | [] => true
  | c :: _ => negb (isspace c)
  end.

(** The number a cell contributes to a cleaned column. *)
Definition cell_number (x : value) : float :=
  fillna0 (to_numeric_coerce (outcome x)).

(** The labels of the four columns the loader adds. *)
Definition added_labels : list str :=
  [u "Qty_Clean"; u "Retail_Clean"; u "Cost_Clean"; u "Total_Retail_Value"].

(** The three searches of the loader all find a label. *)
Definition all_resolved (columns : list str) : Prop :=
  resolve_qty columns <> None /\ resolve_retail columns <> None
  /\ resolve_ext_cost columns <> None.

(** Adding a column to the labels [L]: nothing changes when it is there. *)
Definition add_label (L : list str) (c : str) : list str :=
  if existsb (fun c' => Text.eqb c' c) L then L else L ++ [c].

(** The summary of a file whose quantity, retail and cost columns hold the
    cells [qc], [rc] and [cc]. *)
Definition loaded_summary (file : UploadedFile) (df : frame str)
           (qc rc cc : list value) : Summary :=
  let Qty_Clean := List.map cell_number qc in
  let Retail_Clean := List.map cell_number rc in
  let Cost_Clean := List.map cell_number cc in
  let Total_Retail_Value := series_mul Qty_Clean Retail_Clean in
  {| Filename := name file;
     Status := OK;
     Details := NoDetails;
     Items := series_sum Qty_Clean;
     Variety := List.length (filter (fun q => 0 <? q) Qty_Clean);
     Total_Cost := series_sum Cost_Clean;
     Total_Retail := series_sum Total_Retail_Value;
     Raw_Data :=
       set_column
         (set_column
            (set_column
               (set_column df (u "Qty_Clean") (as_series Qty_Clean))
               (u "Retail_Clean") (as_series Retail_Clean))
            (u "Cost_Clean") (as_series Cost_Clean))
         (u "Total_Retail_Value") (as_series Total_Retail_Value) |}.

(** The number of times [c] stands among [columns]. *)
Definition occurrences (c : str) (columns : list str) : nat :=
  List.length (filter (fun c' => Text.eqb c' c) columns).

(** Each label the searches find stands once among [columns]. *)
Definition found_once (columns : list str) : bool :=
  forallb (fun r => match r with
                    | Some c => (occurrences c columns =? 1)%nat
                    | None => true
                    end)
          [resolve_qty columns; resolve_retail columns; resolve_ext_cost columns].

(** None of the four labels the loader adds is repeated among [columns].
    (When one is, [df[c]] on it is a table in the lines that read the added
    columns back, and what the summary then holds is not a number; such
    tables are left out of the statements on loaded files.) *)
Definition added_free (columns : list str) : bool :=
  forallb (fun c => (occurrences c columns <=? 1)%nat) added_labels.

(** The table of [file], when it parses, repeats none of the added labels. *)
Definition regular (file : UploadedFile) : bool :=
  match parsed_table file with
  | Ok df => added_free (frame_labels df)
  | Raise _ => true
  end.

(** The file is loaded: it parses, the three columns are found, and each of
    their labels stands once. *)
Definition loads (file : UploadedFile) : Prop :=
  exists df,
    parsed_table file = Ok df /\ all_resolved (frame_labels df)
    /\ found_once (frame_labels df) = true.

(** The message of [pd.to_numeric] on a table. *)
Definition not_a_column : str :=
  u "arg must be a list, tuple, 1-d array, or Series".

(** [x] is the character [n] of a needle, letter case apart: [n] itself, or
    the capital of [n] when [n] is a small ASCII letter. *)
Definition same_letter (x n : char) : bool :=
  ((x =? n) || ((0x61 <=? n) && (n <=? 0x7A) && (x + 0x20 =? n)))%N.

(** The label [c] contains the characters of [needle] in a row, each in
    upper or in lower case. *)
Definition mentions_in_any_case (needle : string) (c : str) : Prop :=
  exists pre mid suf,
    c = pre ++ mid ++ suf
    /\ Forall2 (fun x n => same_letter x n = true) mid (u needle).

(** A needle of small ASCII letters and spaces, without [k] and not ending
    with [i], the two letters that the lower-case forms of U+212A and
    U+0130 could supply. *)
Fixpoint plain_needle (needle : str) : bool :=
  match needle with
  | [] => true
  | n :: rest =>
      ((n =? 0x20) || ((0x61 <=? n) && (n <=? 0x7A) && negb (n =? 0x6B)))%N
      && (negb (n =? 0x69)%N || match rest with [] => false | _ :: _ => true end)
      && plain_needle rest
  end.

(** The file with the Latin-1 reading in the place of the UTF-8 one. *)
Definition reread_as_latin1 (file : UploadedFile) : UploadedFile :=
  {| name := name file;
     read_csv_utf8_sig := read_csv_latin1 file;
     read_csv_latin1 := read_csv_latin1 file;
     read_excel := read_excel file |}.

(** The message of [c.strip()] on a label that is not text. *)
Definition no_strip (type_name : str) : str :=
  u "'" ++ type_name ++ u "' object has no attribute 'strip'".

Definition is_text (l : label) : bool :=
  match l with LText _ => true | LOther _ => false end.

(** ** Example inputs *)

Definition no_reader : result (frame label) :=
  Raise (Exn OtherError (u "not a file of this kind")).

Definition name_price_csv : UploadedFile :=
  {| name := u "prices.csv";
     read_csv_utf8_sig :=
       Ok [ (LText (u "Name "), [VStr (u "lamp"); VStr (u "desk")]);
            (LText (u "Price"), [VStr (u "$5.00"); VStr (u "$7.50")]) ];
     read_csv_latin1 := no_reader;
     read_excel := no_reader |}.

(** The table pandas makes of the file
    [Qty,Unit Retail,Ext. Retail / 10,"$5.00","$2.00" / 5,"$10.00","$4.00"]:
    a column of integers and two columns of text. *)
Definition example_table : frame label :=
  [ (LText (u "Qty"), [VInt 10; VInt 5]);
    (LText (u "Unit Retail"), [VStr (u "$5.00"); VStr (u "$10.00")]);
    (LText (u "Ext. Retail"), [VStr (u "$2.00"); VStr (u "$4.00")]) ].

Definition example_csv : UploadedFile :=
  {| name := u "manifest.csv";
     read_csv_utf8_sig := Ok example_table;
     read_csv_latin1 := no_reader;
     read_excel := no_reader |}.

(** A file with one line of 10 items at $10.00 and a credit of $40.00 in
    its cost column. *)
Definition credit_csv : UploadedFile :=
  {| name := u "credit.csv";
     read_csv_utf8_sig :=
       Ok [ (LText (u "Qty"), [VInt 10]);
            (LText (u "Unit Retail"), [VStr (u "$10.00")]);
            (LText (u "Ext. Retail"), [VStr (u "($40.00)")]) ];
     read_csv_latin1 := no_reader;
     read_excel := no_reader |}.

Definition plain_settings : Settings :=
  {| discount_scenario := 35; freight_cost := 0; misc_cost := 0 |}.

(** The example table once its headers are trimmed. *)
Definition example_frame : frame str :=
  [ (u "Qty", [VInt 10; VInt 5]);
    (u "Unit Retail", [VStr (u "$5.00"); VStr (u "$10.00")]);
    (u "Ext. Retail", [VStr (u "$2.00"); VStr (u "$4.00")]) ].

(** A workbook with the three columns and a fourth whose header is the
    number 2024. *)
Definition numbered_header_xlsx : UploadedFile :=
  {| name := u "lot.xlsx";
     read_csv_utf8_sig := no_reader;
     read_csv_latin1 := no_reader;
     read_excel := Ok (example_table ++ [ (LOther (u "int"), [VNone; VNone]) ]) |}.

(** A CSV file that is not UTF-8 and is read as Latin-1. *)
Definition latin1_csv : UploadedFile :=
  {| name := u "lot.csv";
     read_csv_utf8_sig := Raise (Exn UnicodeDecodeError (u "invalid start byte"));
     read_csv_latin1 := Ok example_table;
     read_excel := no_reader |}.

(** A CSV file whose headers [Qty] and [ Qty] are one label once trimmed. *)
Definition repeated_qty_csv : UploadedFile :=
  {| name := u "twice.csv";
     read_csv_utf8_sig :=
       Ok [ (LText (u "Qty"), [VInt 10]);
            (LText (u " Qty"), [VInt 3]);
            (LText (u "Unit Retail"), [VStr (u "$5.00")]);
            (LText (u "Ext. Retail"), [VStr (u "$2.00")]) ];
     read_csv_latin1 := no_reader;
     read_excel := no_reader |}.

(** * Auxiliary facts *)

(** ** Text lemmas *)

Section TextFacts.

Local Open Scope N_scope.

Lemma lstrip_head (c : char) (s : str) :
  isspace c = false -> lstrip (c :: s) = c :: s.
Proof. intros H. simpl. now rewrite H. Qed.

Lemma strip_between (a b : char) (s : str) :
  isspace a = false -> isspace b = false ->
  strip (a :: s ++ [b]) = a :: s ++ [b].
Proof.
  intros Ha Hb. unfold strip, rstrip.
  rewrite lstrip_head by exact Ha.
  assert (E : rev (a :: s ++ [b]) = b :: rev (a :: s)).
  { change (a :: s ++ [b]) with ((a :: s) ++ [b]). now rewrite rev_app_distr. }
  rewrite E, lstrip_head by exact Hb.
  rewrite <- E. apply rev_involutive.
Qed.

Lemma eqb_eq (a b : str) : Text.eqb a b = true <-> a = b.
Proof.
  unfold Text.eqb. destruct (list_eq_dec N.eq_dec a b); split; congruence.
Qed.

Lemma eqb_neq (a b : str) : Text.eqb a b = false <-> a <> b.
Proof.
  unfold Text.eqb. destruct (list_eq_dec N.eq_dec a b); split; congruence.
Qed.

(** Replacing a character by nothing filters it out. *)
Lemma replace_nil_filter (s : str) (ch : char) :
  replace s ch [] = filter (fun c => negb (c =? ch)) s.
Proof.
  unfold replace. induction s as [|c s IH]; simpl; [reflexivity|].
  rewrite IH. now destruct (c =? ch).
Qed.

End TextFacts.

(** ** The steps of the text branch *)

Lemma fold_replace_remove (s : str) :
  fold_left (fun s ch => replace s ch []) stripped_symbols s = remove_symbols s.
Proof.
  unfold stripped_symbols, remove_symbols. simpl fold_left.
  rewrite !replace_nil_filter.
  induction s as [|c s IH]; [reflexivity|].
  simpl.
  destruct (c =? dollar)%N eqn:E1; simpl; [exact IH|].
  destruct (c =? euro)%N eqn:E2; simpl; [exact IH|].
  destruct (c =? pound)%N eqn:E3; simpl; [exact IH|].
  destruct (c =? comma)%N eqn:E4; simpl; [exact IH|].
  destruct (c =? percent)%N eqn:E5; simpl; [exact IH|].
  destruct (c =? nbsp)%N eqn:E6; simpl; [exact IH|].
  now rewrite IH.
Qed.

(** The text branch, step by step. *)
Lemma clean_text_steps (x : str) :
  clean_text x =
  Ok (let s := strip x in
      if Text.eqb s [] then Missing
      else
        let negative := startswith s (u "(") && endswith s (u ")") in
        convert negative (scrub (if negative then strip (slice_1_m1 s) else s))).
Proof.
  unfold clean_text, convert, scrub. cbv zeta.
  destruct (Text.eqb (strip x) []); [reflexivity|].
  rewrite fold_replace_remove.
  match goal with |- context [existsb ?f ?l] => destruct (existsb f l) end;
    [reflexivity|].
  unfold try_except, bind.
  match goal with |- context [py_float ?s] => destruct (py_float s) end;
    reflexivity.
Qed.

(** A string wrapped in parentheses: the inside is scrubbed and converted
    under the negative flag. *)
Lemma clean_currency_parenthesised (inner : str) :
  clean_currency (VStr (u "(" ++ inner ++ u ")")) =
  Ok (convert true (scrub (strip inner))).
Proof.
  set (s := u "(" ++ inner ++ u ")").
  assert (H1 : strip s = s) by exact (@strip_between 0x28%N 0x29%N inner eq_refl eq_refl).
  assert (H2 : Text.eqb s [] = false) by (apply eqb_neq; discriminate).
  assert (H3 : startswith s (u "(") = true) by reflexivity.
  assert (H4 : endswith s (u ")") = true).
  { unfold endswith, s. rewrite !rev_app_distr. reflexivity. }
  assert (H5 : slice_1_m1 s = inner) by apply (removelast_last inner).
  unfold clean_currency. simpl pd_isna. cbv iota beta.
  rewrite clean_text_steps. cbv zeta.
  now rewrite H1, H2, H3, H4, H5.
Qed.

(** [float] rejects the three strings the normaliser treats as missing, so
    a string it accepts is converted. *)
Lemma convert_parsed (negative : bool) (s : str) (v : float) :
  py_float s = Ok v ->
  convert negative s = Number (if negative then - v else v).
Proof.
  intros H. unfold convert.
  destruct (existsb (Text.eqb s) [ []; u "--"; u "-" ]) eqn:E.
  - apply existsb_exists in E. destruct E as [t [Hin Heq]].
    apply eqb_eq in Heq. subst t.
    simpl in Hin.
    destruct Hin as [<- | [<- | [<- | []]]]; vm_compute in H; discriminate.
  - now rewrite H.
Qed.

Lemma convert_rejected (negative : bool) (s : str) (e : exn) :
  py_float s = Raise e ->
  convert negative s = Missing \/ convert negative s = ResidualText s.
Proof.
  intros H. unfold convert.
  destruct (existsb _ _); [now left|]. rewrite H. now right.
Qed.

(** Stripping keeps a part of the string. *)
Lemma lstrip_incl (s : str) (c : char) : In c (lstrip s) -> In c s.
Proof.
  induction s as [|a s IH]; simpl; [tauto|].
  destruct (isspace a); simpl; tauto.
Qed.

Lemma strip_incl (s : str) (c : char) : In c (strip s) -> In c s.
Proof.
  unfold strip, rstrip. intros H.
  apply in_rev in H. apply lstrip_incl in H. apply in_rev in H.
  now apply lstrip_incl.
Qed.

Lemma scrub_free_of_symbols (s : str) (c : char) :
  In c stripped_symbols -> ~ In c (scrub s).
Proof.
  intros Hc H. unfold scrub in H. apply strip_incl in H.
  unfold replace in H. apply in_flat_map in H. destruct H as [a [Ha Hin]].
  unfold remove_symbols in Ha. apply filter_In in Ha. destruct Ha as [_ Ha].
  destruct (a =? unicode_minus)%N.
  - simpl in Hin. destruct Hin as [<- | []].
    simpl in Hc. repeat (destruct Hc as [Hc | Hc]; [discriminate|]). exact Hc.
  - simpl in Hin. destruct Hin as [<- | []].
    apply negb_true_iff in Ha.
    assert (existsb (N.eqb a) stripped_symbols = true); [|congruence].
    apply existsb_exists. exists a. split; [exact Hc | apply N.eqb_refl].
Qed.

(** ** Text that [float] accepts *)

Section Literals.

Local Open Scope N_scope.

Ltac bool_to_prop H :=
  rewrite ?orb_true_iff, ?andb_true_iff, ?negb_true_iff,
          ?N.leb_le, ?N.eqb_eq, ?N.eqb_neq in H.

Lemma literal_char_range (c : char) :
  literal_char c = true -> 0x2B <= c <= 0x7A /\ c <> 0x2C.
Proof.
  unfold literal_char, is_digit. intros H. bool_to_prop H. lia.
Qed.

Lemma literal_char_not_space (c : char) :
  literal_char c = true -> isspace c = false.
Proof.
  intros H. apply literal_char_range in H.
  apply not_true_iff_false. intros Hs. unfold isspace in Hs.
  bool_to_prop Hs. lia.
Qed.

Lemma literal_char_not_symbol (c : char) :
  literal_char c = true -> existsb (N.eqb c) stripped_symbols = false.
Proof.
  intros H. apply literal_char_range in H.
  apply not_true_iff_false. intros Hs.
  unfold stripped_symbols, dollar, euro, pound, comma, percent, nbsp in Hs.
  simpl in Hs. bool_to_prop Hs. lia.
Qed.

Lemma literal_char_not_minus_sign (c : char) :
  literal_char c = true -> (c =? unicode_minus) = false.
Proof.
  intros H. apply literal_char_range in H.
  apply N.eqb_neq. unfold unicode_minus. lia.
Qed.

Lemma literal_char_not_paren (c : char) :
  literal_char c = true -> (0x28 =? c) = false.
Proof.
  intros H. apply literal_char_range in H. apply N.eqb_neq. lia.
Qed.

Lemma digit_literal_char (c : char) : is_digit c = true -> literal_char c = true.
Proof. intros H. unfold literal_char. now rewrite H. Qed.

Lemma scan_sign_chars (s s1 : str) (b : bool) :
  scan_sign s = (b, s1) ->
  forallb literal_char s1 = true -> forallb literal_char s = true.
Proof.
  destruct s as [|c t]; simpl.
  - intros H. now injection H as _ <-.
  - destruct (c =? 0x2D) eqn:E1; [|destruct (c =? 0x2B) eqn:E2].
    + apply N.eqb_eq in E1. subst c. intros H. injection H as _ <-.
      intros ->. reflexivity.
    + apply N.eqb_eq in E2. subst c. intros H. injection H as _ <-.
      intros ->. reflexivity.
    + intros H. injection H as _ <-. simpl. tauto.
Qed.

Lemma scan_digits_chars (s rest : str) (acc n a n' : Z) :
  scan_digits acc n s = (a, n', rest) ->
  forallb literal_char rest = true -> forallb literal_char s = true.
Proof.
  revert acc n. induction s as [|c t IH]; intros acc n; simpl.
  - intros H. now injection H as _ _ <-.
  - destruct (is_digit c) eqn:E.
    + intros H Hr. rewrite (digit_literal_char _ E). simpl. exact (IH _ _ H Hr).
    + intros H. injection H as _ _ <-. simpl. tauto.
Qed.

Lemma scan_fraction_chars (s rest : str) (ip m nf : Z) :
  scan_fraction ip s = (m, nf, rest) ->
  forallb literal_char rest = true -> forallb literal_char s = true.
Proof.
  destruct s as [|c t]; simpl.
  - intros H. now injection H as _ _ <-.
  - destruct (c =? 0x2E) eqn:E.
    + apply N.eqb_eq in E. subst c. intros H Hr. simpl.
      exact (scan_digits_chars _ _ _ H Hr).
    + intros H. injection H as _ _ <-. simpl. tauto.
Qed.

Lemma scan_exponent_chars (s : str) (e : Z) :
  scan_exponent s = Some e -> forallb literal_char s = true.
Proof.
  destruct s as [|c t]; simpl; [reflexivity|].
  destruct ((c =? 0x65) || (c =? 0x45)) eqn:E; [|discriminate].
  destruct (scan_sign t) as [eneg t1] eqn:E1.
  destruct (scan_digits 0 0 t1) as [[ev ne] t2] eqn:E2.
  destruct t2; [|discriminate]. intros _.
  assert (Hc : literal_char c = true).
  { bool_to_prop E. destruct E as [-> | ->]; reflexivity. }
  rewrite Hc. simpl.
  apply (scan_sign_chars _ E1). now apply (scan_digits_chars _ _ _ E2).
Qed.

Lemma parse_decimal_chars (s : str) (v : float) :
  parse_decimal s = Some v -> forallb literal_char s = true.
Proof.
  unfold parse_decimal.
  destruct (scan_sign s) as [neg s1] eqn:E1.
  destruct (scan_digits 0 0 s1) as [[ip ni] s2] eqn:E2.
  destruct (scan_fraction ip s2) as [[m nf] s3] eqn:E3.
  destruct (ni + nf =? 0)%Z; [discriminate|].
  destruct (scan_exponent s3) as [e|] eqn:E4; [|discriminate]. intros _.
  apply (scan_sign_chars _ E1), (scan_digits_chars _ _ _ E2),
    (scan_fraction_chars _ _ E3), (scan_exponent_chars _ E4).
Qed.

Lemma ascii_lower_chars (s : str) :
  forallb literal_char (ascii_lower s) = true -> forallb literal_char s = true.
Proof.
  induction s as [|c t IH]; simpl; [reflexivity|].
  rewrite !andb_true_iff. intros [Hc Ht]. split; [|now apply IH].
  destruct ((0x41 <=? c) && (c <=? 0x5A)) eqn:E; [|exact Hc].
  unfold literal_char. rewrite E. now rewrite orb_true_r.
Qed.

Lemma parse_inf_nan_chars (s : str) (v : float) :
  parse_inf_nan s = Some v -> forallb literal_char s = true.
Proof.
  unfold parse_inf_nan.
  destruct (scan_sign s) as [neg s1] eqn:E1. cbv zeta.
  intros H. apply (scan_sign_chars _ E1), ascii_lower_chars.
  destruct (Text.eqb (ascii_lower s1) (u "inf")) eqn:Ea;
    [apply eqb_eq in Ea; now rewrite Ea|].
  destruct (Text.eqb (ascii_lower s1) (u "infinity")) eqn:Eb;
    [apply eqb_eq in Eb; now rewrite Eb|].
  destruct (Text.eqb (ascii_lower s1) (u "nan")) eqn:Ec;
    [apply eqb_eq in Ec; now rewrite Ec|].
  discriminate H.
Qed.

Lemma drop_underscores_chars (s t : str) (prev : char) :
  drop_underscores prev s = Some t ->
  forallb literal_char t = true -> forallb literal_char s = true.
Proof.
  revert prev t. induction s as [|c s IH]; intros prev t; simpl.
  - reflexivity.
  - destruct (is_underscore c) eqn:E.
    + destruct (is_digit prev); [|discriminate].
      intros H Ht. unfold is_underscore in E. apply N.eqb_eq in E. subst c.
      simpl. exact (IH _ _ H Ht).
    + destruct (is_underscore prev && negb (is_digit c)); [discriminate|].
      destruct (drop_underscores c s) as [t'|] eqn:E'; [|discriminate].
      simpl. intros H. injection H as <-. simpl.
      rewrite !andb_true_iff. intros [Hc Ht]. split; [exact Hc|].
      exact (IH _ _ E' Ht).
Qed.

(** Every character of a string [float] accepts, once trimmed, is a
    character of a literal. *)
Lemma py_float_chars (r : str) (v : float) :
  py_float r = Ok v -> forallb literal_char (strip r) = true.
Proof.
  unfold py_float.
  destruct (drop_underscores 0 (strip r)) as [t|] eqn:E; [|discriminate].
  intros H. apply (drop_underscores_chars _ _ E).
  destruct (parse_decimal t) as [f|] eqn:E1;
    [exact (parse_decimal_chars _ E1)|].
  destruct (parse_inf_nan t) as [f|] eqn:E2;
    [exact (parse_inf_nan_chars _ E2) | discriminate].
Qed.

Lemma lstrip_literal (s : str) :
  forallb literal_char s = true -> lstrip s = s.
Proof.
  destruct s as [|c t]; simpl; [reflexivity|].
  rewrite andb_true_iff. intros [Hc _].
  now rewrite (literal_char_not_space _ Hc).
Qed.

Lemma strip_literal (s : str) :
  forallb literal_char s = true -> strip s = s.
Proof.
  intros H. unfold strip, rstrip. rewrite (lstrip_literal _ H).
  rewrite lstrip_literal; [apply rev_involutive|].
  apply forallb_forall. intros c Hc. apply in_rev in Hc.
  revert c Hc. now apply forallb_forall.
Qed.

Lemma remove_symbols_literal (s : str) :
  forallb literal_char s = true -> remove_symbols s = s.
Proof.
  unfold remove_symbols. induction s as [|c t IH]; [reflexivity|].
  cbn [filter forallb]. rewrite andb_true_iff. intros [Hc Ht].
  rewrite (literal_char_not_symbol _ Hc). cbn [negb]. now rewrite IH.
Qed.

Lemma replace_minus_literal (s : str) :
  forallb literal_char s = true -> replace s unicode_minus (u "-") = s.
Proof.
  unfold replace. induction s as [|c t IH]; simpl; [reflexivity|].
  rewrite andb_true_iff. intros [Hc Ht].
  rewrite (literal_char_not_minus_sign _ Hc). simpl. now rewrite IH.
Qed.

Lemma scrub_literal (s : str) :
  forallb literal_char s = true -> scrub s = s.
Proof.
  intros H. unfold scrub.
  now rewrite (remove_symbols_literal _ H), (replace_minus_literal _ H),
    (strip_literal _ H).
Qed.

Lemma parenthesised_literal (s : str) :
  forallb literal_char s = true -> parenthesised s = false.
Proof.
  destruct s as [|c t]; [reflexivity|]. cbn [forallb].
  rewrite andb_true_iff. intros [Hc _].
  unfold parenthesised, startswith. change (u "(") with [0x28].
  cbn [is_prefix]. now rewrite (literal_char_not_paren _ Hc).
Qed.

End Literals.

(** The normaliser agrees with [float] on every string [float] accepts. *)
Lemma clean_currency_of_literal (r : str) (v : float) :
  py_float r = Ok v -> clean_currency (VStr r) = Ok (Number v).
Proof.
  intros H. pose proof (py_float_chars _ H) as Hc.
  assert (Hs : py_float (strip r) = Ok v).
  { unfold py_float in *. now rewrite (strip_literal _ Hc). }
  unfold clean_currency. simpl pd_isna. cbv iota beta.
  rewrite clean_text_steps. cbv zeta.
  destruct (Text.eqb (strip r) []) eqn:E.
  - apply eqb_eq in E. rewrite E in Hs. vm_compute in Hs. discriminate Hs.
  - fold (parenthesised (strip r)).
    rewrite (parenthesised_literal _ Hc), (scrub_literal _ Hc).
    now rewrite (convert_parsed false _ Hs).
Qed.

(** ** Decimal digits *)

Section Digits.

Local Open Scope Z_scope.

Lemma digit_char (n : Z) :
  0 <= n < 10 ->
  is_digit (0x30 + Z.to_N n)%N = true /\ Z.of_N (0x30 + Z.to_N n - 0x30) = n.
Proof.
  intros H. unfold is_digit.
  rewrite andb_true_iff, !N.leb_le. split; [lia|].
  replace (0x30 + Z.to_N n - 0x30)%N with (Z.to_N n) by lia. lia.
Qed.

Lemma digits_before_app (fuel : nat) (n : Z) (t1 t2 : str) :
  digits_before fuel n (t1 ++ t2) = digits_before fuel n t1 ++ t2.
Proof.
  revert n t1. induction fuel as [|fuel IH]; intros n t1;
    cbn [digits_before]; [reflexivity|]. cbv zeta.
  destruct (n <? 10); [reflexivity|].
  apply (IH (n / 10) (_ :: t1)).
Qed.

Lemma digits_before_digits (fuel : nat) (n : Z) (tail : str) :
  0 <= n -> forallb is_digit tail = true ->
  forallb is_digit (digits_before fuel n tail) = true.
Proof.
  revert n tail. induction fuel as [|fuel IH]; intros n tail Hn Ht;
    cbn [digits_before]; [exact Ht|]. cbv zeta.
  assert (Hd : is_digit (0x30 + Z.to_N (n mod 10))%N = true).
  { apply digit_char. apply Z.mod_pos_bound. lia. }
  destruct (n <? 10).
  - cbn [forallb]. now rewrite Hd.
  - apply IH; [apply Z.div_pos; lia|]. cbn [forallb]. now rewrite Hd.
Qed.

(** Reading the digits of [n] gives [n]. *)
Lemma scan_digits_before (fuel : nat) (n c : Z) (tail : str) :
  0 <= n < 2 ^ Z.of_nat fuel -> (1 <= fuel)%nat ->
  exists k, 0 < k /\
    scan_digits 0 c (digits_before fuel n tail) = scan_digits n (c + k) tail.
Proof.
  revert n tail. induction fuel as [|fuel IH]; intros n tail Hn Hf; [lia|].
  cbn [digits_before]. cbv zeta.
  assert (Hm : 0 <= n mod 10 < 10) by (apply Z.mod_pos_bound; lia).
  destruct (digit_char Hm) as [Hd Hv].
  destruct (n <? 10) eqn:E.
  - apply Z.ltb_lt in E. exists 1. split; [lia|].
    cbn [scan_digits]. rewrite Hd, Hv.
    rewrite Z.mod_small by lia. reflexivity.
  - apply Z.ltb_ge in E.
    assert (Hf' : (1 <= fuel)%nat).
    { destruct fuel; [|lia]. simpl in Hn. lia. }
    assert (Hq : 0 <= n / 10 < 2 ^ Z.of_nat fuel).
    { split; [apply Z.div_pos; lia|].
      apply Z.div_lt_upper_bound; [lia|].
      rewrite Nat2Z.inj_succ, Z.pow_succ_r in Hn by lia. lia. }
    destruct (IH (n / 10) ((0x30 + Z.to_N (n mod 10))%N :: tail) Hq Hf')
      as [k [Hk Hs]].
    exists (k + 1). split; [lia|].
    rewrite Hs. cbn [scan_digits]. rewrite Hd, Hv.
    replace (10 * (n / 10) + n mod 10) with n
      by (rewrite (Z.div_mod n 10) at 1; lia).
    now rewrite Z.add_assoc.
Qed.

Lemma decimal_log2_fuel (n : Z) :
  0 <= n -> 0 <= n < 2 ^ Z.of_nat (S (Z.to_nat (Z.log2 n))).
Proof.
  intros Hn. split; [exact Hn|].
  rewrite Nat2Z.inj_succ, Z2Nat.id by apply Z.log2_nonneg.
  destruct (Z.eq_dec n 0) as [->|Hz]; [reflexivity|].
  apply Z.log2_spec. lia.
Qed.

Lemma decimal_digits (n : Z) : 0 <= n -> forallb is_digit (decimal n) = true.
Proof. intros Hn. now apply digits_before_digits. Qed.

Lemma scan_decimal (n c : Z) (rest : str) :
  0 <= n ->
  exists k, 0 < k /\
    scan_digits 0 c (decimal n ++ rest) = scan_digits n (c + k) rest.
Proof.
  intros Hn. unfold decimal.
  rewrite <- digits_before_app. simpl app.
  apply scan_digits_before; [now apply decimal_log2_fuel | lia].
Qed.

Lemma digits_before_nonempty (fuel : nat) (n : Z) (tail : str) :
  tail <> [] -> digits_before fuel n tail <> [].
Proof.
  revert n tail. induction fuel as [|fuel IH]; intros n tail Ht;
    cbn [digits_before]; [exact Ht|]. cbv zeta.
  destruct (n <? 10); [discriminate|]. apply IH. discriminate.
Qed.

Lemma decimal_head (n : Z) :
  0 <= n -> exists c t, decimal n = c :: t /\ is_digit c = true.
Proof.
  intros Hn. pose proof (decimal_digits Hn) as Hd.
  destruct (decimal n) as [|c t] eqn:E.
  - exfalso. revert E. unfold decimal. cbn [digits_before]. cbv zeta.
    destruct (n <? 10); [discriminate|].
    apply digits_before_nonempty. discriminate.
  - exists c, t. split; [reflexivity|]. cbn [forallb] in Hd.
    now apply andb_true_iff in Hd.
Qed.

End Digits.

(** ** Numbers that need no rounding *)

Section Exact.

Local Open Scope Z_scope.

Lemma shift_value (j : nat) (m : positive) :
  Zpos (shift j m) = Zpos m * 2 ^ Z.of_nat j.
Proof.
  induction j as [|j IH]; [simpl; lia|].
  cbn [shift]. rewrite Pos2Z.inj_xO, IH, Nat2Z.inj_succ, Z.pow_succ_r by lia. lia.
Qed.

Lemma shift_digits (j : nat) (m : positive) :
  Zpos (digits2_pos (shift j m)) = Zpos (digits2_pos m) + Z.of_nat j.
Proof.
  induction j as [|j IH]; [simpl; lia|].
  cbn [shift digits2_pos]. rewrite Pos2Z.inj_succ, IH. lia.
Qed.

Lemma iter_pos_nat (A : Type) (f : A -> A) (p : positive) (x : A) :
  iter_pos f p x = Nat.iter (Pos.to_nat p) f x.
Proof.
  revert x. induction p as [p IH | p IH |]; intros x; cbn [iter_pos].
  - rewrite !IH, Pos2Nat.inj_xI, <- Nat.iter_add, Nat.iter_succ_r.
    f_equal. lia.
  - rewrite !IH, Pos2Nat.inj_xO, <- Nat.iter_add. f_equal. lia.
  - reflexivity.
Qed.

Lemma shr_shift (j : nat) (m : positive) :
  Nat.iter j shr_1 (Build_shr_record (Zpos (shift j m)) false false)
  = Build_shr_record (Zpos m) false false.
Proof.
  induction j as [|j IH]; [reflexivity|].
  rewrite Nat.iter_succ_r. cbn [shift shr_1 orb]. exact IH.
Qed.

Lemma digits2_size (m : positive) : digits2_pos m = Pos.size m.
Proof. induction m as [m IH | m IH |]; simpl; congruence. Qed.

Lemma mantissa_bound (m : positive) (e : Z) :
  bounded prec emax m e = true -> Z.log2 (Zpos m) <= 52.
Proof.
  unfold bounded, canonical_mantissa, fexp. rewrite andb_true_iff, Z.eqb_eq.
  intros [H _]. rewrite digits2_size in H.
  assert (Hs : Zpos (Pos.size m) <= 53) by (unfold prec in H; lia).
  destruct m; simpl in *; lia.
Qed.

(** Rounding a number that is a binary64 number gives that number. *)
Lemma binary_round_exact (s : bool) (m : positive) (e : Z) (j : nat) :
  bounded prec emax m e = true ->
  binary_round prec emax s (shift j m) (e - Z.of_nat j) = S754_finite s m e.
Proof.
  intros Hb. pose proof Hb as Hb'.
  unfold bounded, canonical_mantissa in Hb'.
  rewrite andb_true_iff, Z.eqb_eq in Hb'. destruct Hb' as [Hc He].
  assert (Hf : fexp prec emax (Zpos (digits2_pos (shift j m)) + (e - Z.of_nat j)) = e).
  { rewrite shift_digits.
    replace (Zpos (digits2_pos m) + Z.of_nat j + (e - Z.of_nat j))
      with (Zpos (digits2_pos m) + e) by lia.
    exact Hc. }
  unfold binary_round. rewrite Hf.
  assert (Ha : shl_align (shift j m) (e - Z.of_nat j) e
               = (shift j m, e - Z.of_nat j)).
  { unfold shl_align.
    replace (e - (e - Z.of_nat j)) with (Z.of_nat j) by lia.
    destruct (Z.of_nat j) eqn:E; try reflexivity. lia. }
  rewrite Ha. unfold binary_round_aux.
  assert (Hs : shr_fexp prec emax (Zpos (shift j m)) (e - Z.of_nat j) loc_Exact
               = (Build_shr_record (Zpos m) false false, e)).
  { unfold shr_fexp. cbn [Zdigits2 shr_record_of_loc]. rewrite Hf. unfold shr.
    replace (e - (e - Z.of_nat j)) with (Z.of_nat j) by lia.
    destruct (Z.of_nat j) as [|p|p] eqn:E.
    - assert (j = 0%nat) by lia. subst j. cbn [shift]. f_equal. lia.
    - rewrite iter_pos_nat.
      replace (Pos.to_nat p) with j by lia.
      rewrite shr_shift. f_equal. lia.
    - lia. }
  rewrite Hs. cbn [shr_m loc_of_shr_record round_nearest_even].
  assert (Hs' : shr_fexp prec emax (Zpos m) e loc_Exact
                = (Build_shr_record (Zpos m) false false, e)).
  { unfold shr_fexp. cbn [Zdigits2 shr_record_of_loc]. rewrite Hc.
    rewrite Z.sub_diag. reflexivity. }
  rewrite Hs'. cbn [shr_m]. now rewrite He.
Qed.

Lemma normalize_exact (s : bool) (m : positive) (e : Z) (j : nat) (M E : Z) :
  bounded prec emax m e = true ->
  M = Zpos m * 2 ^ Z.of_nat j -> E = e - Z.of_nat j ->
  binary_normalize prec emax (if s then - M else M) E s = S754_finite s m e.
Proof.
  intros Hb -> ->. rewrite <- shift_value.
  destruct s; cbn [Z.opp binary_normalize]; now apply binary_round_exact.
Qed.

(** The decimal [m * 2 ^ e], with [e] not negative, is read exactly. *)
Lemma of_decimal_exact_int (s : bool) (m : positive) (e : Z) :
  bounded prec emax m e = true -> 0 <= e ->
  of_decimal s (Zpos m * 2 ^ e) 0 = SF2Prim (S754_finite s m e).
Proof.
  intros Hb He. unfold of_decimal.
  assert (Hp : 0 < Zpos m * 2 ^ e) by (apply Z.mul_pos_pos; [lia | apply Z.pow_pos_nonneg; lia]).
  replace (Zpos m * 2 ^ e =? 0) with false by (symmetry; apply Z.eqb_neq; lia).
  cbn [Z.leb Z.compare]. f_equal.
  apply (@normalize_exact s m e (Z.to_nat e)); [exact Hb | | lia].
  rewrite Z2Nat.id by lia. change (10 ^ 0) with 1. lia.
Qed.

(** The decimal [m * 5 ^ K * 10 ^ (- K)], which is [m * 2 ^ (- K)], is read
    exactly. *)
Lemma of_decimal_exact_frac (s : bool) (m : positive) (e : Z) :
  bounded prec emax m e = true -> e < 0 ->
  of_decimal s (Zpos m * 5 ^ (- e)) e = SF2Prim (S754_finite s m e).
Proof.
  intros Hb He. unfold of_decimal.
  set (K := - e). assert (HK : 0 < K) by (unfold K; lia).
  assert (H5 : 0 < 5 ^ K) by (apply Z.pow_pos_nonneg; lia).
  assert (H2 : 0 < 2 ^ K) by (apply Z.pow_pos_nonneg; lia).
  assert (Hp : 0 < Zpos m * 5 ^ K) by (apply Z.mul_pos_pos; lia).
  replace (Zpos m * 5 ^ K =? 0) with false by (symmetry; apply Z.eqb_neq; lia).
  replace (0 <=? e) with false by (symmetry; apply Z.leb_gt; lia).
  cbv zeta.
  assert (Hd : 10 ^ K = 2 ^ K * 5 ^ K) by (rewrite <- Z.pow_mul_l; reflexivity).
  set (k := Z.max 0 (Z.log2 (10 ^ K) - Z.log2 (Zpos m * 5 ^ K) + 64)).
  assert (Hk : K + 1 <= k).
  { pose proof (mantissa_bound _ _ Hb) as Hm.
    pose proof (Z.log2_mul_below (2 ^ K) (5 ^ K) H2 H5) as Hlo.
    rewrite Z.log2_pow2 in Hlo by lia. rewrite <- Hd in Hlo.
    pose proof (Z.log2_mul_above (Zpos m) (5 ^ K)) as Hhi.
    unfold k. lia. }
  assert (Hq : Zpos m * 5 ^ K * 2 ^ k = (Zpos m * 2 ^ (k - K)) * 10 ^ K).
  { replace k with ((k - K) + K) at 1 by lia.
    rewrite Z.pow_add_r, Hd by lia. ring. }
  rewrite Hq, Z.div_mul, Z.mod_mul by lia.
  cbn [Z.eqb]. f_equal.
  apply (@normalize_exact s m e (Z.to_nat (k - K + 1))); [exact Hb | | unfold K in *; lia].
  rewrite Z2Nat.id, Z.pow_add_r by lia. change (2 ^ 1) with 2. lia.
Qed.

End Exact.

(** ** Texts that are read back *)

Section ReadBack.

Local Open Scope Z_scope.

Lemma drop_underscores_none (s : str) (prev : char) :
  forallb no_underscore s = true -> is_underscore prev = false ->
  drop_underscores prev s = Some s.
Proof.
  revert prev. induction s as [|c s IH]; intros prev Hs Hp; cbn [drop_underscores].
  - now rewrite Hp.
  - cbn [forallb] in Hs. apply andb_true_iff in Hs. destruct Hs as [Hc Hs].
    unfold no_underscore in Hc. apply negb_true_iff in Hc.
    rewrite Hc, Hp. cbn [andb]. now rewrite (IH c Hs Hc).
Qed.

Lemma digits_are_literal (s : str) :
  forallb is_digit s = true ->
  forallb literal_char s = true /\ forallb no_underscore s = true.
Proof.
  induction s as [|c s IH]; [now split|].
  cbn [forallb]. rewrite !andb_true_iff. intros [Hc Hs].
  destruct (IH Hs) as [H1 H2]. repeat split; try assumption.
  - now apply digit_literal_char.
  - unfold no_underscore, is_underscore. apply negb_true_iff, N.eqb_neq.
    unfold is_digit in Hc. rewrite andb_true_iff, !N.leb_le in Hc. lia.
Qed.

Lemma signed_chars (p : char -> bool) (neg : bool) (s : str) :
  p 0x2D%N = true -> forallb p s = true -> forallb p (signed neg s) = true.
Proof.
  intros Hm Hs. unfold signed. destruct neg; [|exact Hs].
  change (u "-" ++ s) with (0x2D%N :: s). cbn [forallb]. now rewrite Hm.
Qed.

Lemma exact_decimal_chars (p : char -> bool) (m : positive) (e : Z) :
  (forall s, forallb is_digit s = true -> forallb p s = true) ->
  p 0x2D%N = true -> p 0x65%N = true ->
  forallb p (exact_decimal m e) = true.
Proof.
  intros Hd Hm He. unfold exact_decimal.
  destruct (0 <=? e) eqn:E.
  - apply Hd, decimal_digits. apply Z.leb_le in E.
    apply Z.mul_nonneg_nonneg; [lia | apply Z.pow_nonneg; lia].
  - apply Z.leb_gt in E.
    rewrite !forallb_app. rewrite !andb_true_iff. repeat split.
    + apply Hd, decimal_digits.
      apply Z.mul_nonneg_nonneg; [lia | apply Z.pow_nonneg; lia].
    + change (u "e-") with [0x65%N; 0x2D%N]. cbn [forallb]. now rewrite He, Hm.
    + apply Hd, decimal_digits. lia.
Qed.

Lemma scan_sign_signed (neg : bool) (n : Z) (rest : str) :
  0 <= n ->
  scan_sign (signed neg (decimal n ++ rest)) = (neg, decimal n ++ rest).
Proof.
  intros Hn. unfold signed. destruct neg; [reflexivity|].
  destruct (@decimal_head n Hn) as [c [t [E Hc]]]. rewrite E.
  cbn [app scan_sign].
  unfold is_digit in Hc. rewrite andb_true_iff, !N.leb_le in Hc.
  replace (c =? 0x2D)%N with false by (symmetry; apply N.eqb_neq; lia).
  replace (c =? 0x2B)%N with false by (symmetry; apply N.eqb_neq; lia).
  reflexivity.
Qed.

(** An integer literal is read as its number. *)
Lemma parse_decimal_integer (neg : bool) (n : Z) :
  0 <= n ->
  parse_decimal (signed neg (decimal n)) = Some (of_decimal neg n 0).
Proof.
  intros Hn. unfold parse_decimal.
  rewrite <- (app_nil_r (decimal n)), (@scan_sign_signed neg n [] Hn).
  destruct (@scan_decimal n 0 [] Hn) as [k [Hk Hs]]. rewrite Hs.
  cbn [scan_digits scan_fraction scan_exponent].
  replace (0 + k + 0 =? 0) with false by (symmetry; apply Z.eqb_neq; lia).
  reflexivity.
Qed.

(** A literal with digits and a negative exponent is read as its number. *)
Lemma parse_decimal_scaled (neg : bool) (n K : Z) :
  0 <= n -> 0 <= K ->
  parse_decimal (signed neg (decimal n ++ u "e-" ++ decimal K))
  = Some (of_decimal neg n (- K)).
Proof.
  intros Hn HK. unfold parse_decimal.
  rewrite (@scan_sign_signed neg n _ Hn).
  destruct (@scan_decimal n 0 (u "e-" ++ decimal K) Hn) as [k [Hk Hs]]. rewrite Hs.
  change (u "e-" ++ decimal K) with (0x65%N :: 0x2D%N :: decimal K).
  cbn [scan_digits]. change (is_digit 0x65%N) with false. cbv iota.
  cbn [scan_fraction]. change (0x65 =? 0x2E)%N with false. cbv iota.
  replace (0 + k + 0 =? 0) with false by (symmetry; apply Z.eqb_neq; lia).
  cbn [scan_exponent]. change ((0x65 =? 0x65)%N || (0x65 =? 0x45)%N) with true.
  cbv iota. cbn [scan_sign]. change (0x2D =? 0x2D)%N with true. cbv iota.
  rewrite <- (app_nil_r (decimal K)).
  destruct (@scan_decimal K 0 [] HK) as [k2 [Hk2 Hs2]]. rewrite Hs2.
  cbn [scan_digits].
  replace (0 + k2 =? 0) with false by (symmetry; apply Z.eqb_neq; lia).
  now rewrite Z.sub_0_r.
Qed.

(** The exact decimal of a binary64 number is read back as the number. *)
Lemma py_float_exact_decimal (f : float) (s : bool) (m : positive) (e : Z) :
  Prim2SF f = S754_finite s m e ->
  py_float (signed s (exact_decimal m e)) = Ok f.
Proof.
  intros Hf.
  assert (Hb : bounded prec emax m e = true).
  { pose proof (Prim2SF_valid f) as Hv. now rewrite Hf in Hv. }
  assert (Hl : forallb literal_char (signed s (exact_decimal m e)) = true).
  { apply signed_chars; [reflexivity|].
    apply exact_decimal_chars; [|reflexivity|reflexivity].
    intros t Ht. now apply digits_are_literal. }
  assert (Hu : forallb no_underscore (signed s (exact_decimal m e)) = true).
  { apply signed_chars; [reflexivity|].
    apply exact_decimal_chars; [|reflexivity|reflexivity].
    intros t Ht. now apply digits_are_literal. }
  unfold py_float. rewrite (@strip_literal _ Hl).
  rewrite (@drop_underscores_none _ 0%N Hu eq_refl).
  assert (Hv : parse_decimal (signed s (exact_decimal m e)) = Some f);
    [|now rewrite Hv].
  rewrite <- (SF2Prim_Prim2SF f), Hf.
  unfold exact_decimal. destruct (0 <=? e) eqn:E.
  - apply Z.leb_le in E. rewrite parse_decimal_integer.
    + now rewrite of_decimal_exact_int.
    + apply Z.mul_nonneg_nonneg; [lia | apply Z.pow_nonneg; lia].
  - apply Z.leb_gt in E. rewrite parse_decimal_scaled.
    + rewrite Z.opp_involutive. now rewrite of_decimal_exact_frac.
    + apply Z.mul_nonneg_nonneg; [lia | apply Z.pow_nonneg; lia].
    + lia.
Qed.

Lemma reads_back_refl (f : float) (r : str) :
  py_float r = Ok f -> reads_back f r = true.
Proof.
  intros H. unfold reads_back. rewrite H. now apply Leibniz.eqb_spec.
Qed.

(** Every number has a text. *)
Lemma float_repr_total (f : float) : exists r, float_repr f = Some r.
Proof.
  assert (H : exists r, In r (renderings f) /\ reads_back f r = true).
  { unfold renderings. pose proof (SF2Prim_Prim2SF f) as Hf.
    destruct (Prim2SF f) as [s | s | | s m e] eqn:E.
    - eexists. split; [left; reflexivity|]. apply reads_back_refl.
      rewrite <- Hf. destruct s; vm_compute; reflexivity.
    - eexists. split; [left; reflexivity|]. apply reads_back_refl.
      rewrite <- Hf. destruct s; vm_compute; reflexivity.
    - eexists. split; [left; reflexivity|]. apply reads_back_refl.
      rewrite <- Hf. vm_compute; reflexivity.
    - exists (signed s (exact_decimal m e)). split.
      + apply in_or_app. right. now left.
      + apply reads_back_refl. now apply py_float_exact_decimal. }
  destruct H as [r [Hin Hr]]. unfold float_repr.
  destruct (find (reads_back f) (renderings f)) as [r'|] eqn:E.
  - now exists r'.
  - apply (@find_none _ _ _ E) in Hin. congruence.
Qed.

End ReadBack.

(** Literals [float] reads, and strings it rejects. *)
Lemma py_float_examples :
  py_float (u "1234.56") = Ok 1234.56
  /\ py_float (u " +.5E-1 ") = Ok 0.05
  /\ py_float (u "1_000.5e1") = Ok 10005
  /\ py_float (u "9007199254740993") = Ok 9007199254740992
  /\ py_float (u "1e400") = Ok infinity
  /\ py_float (u "-1e-400") = Ok neg_zero
  /\ py_float (u "2.4703282292062328e-324") = Ok 5e-324
  /\ py_float (u "-InFiNiTy") = Ok neg_infinity
  /\ py_float (u "nan") = Ok nan
  /\ py_float (u "1e") = Raise could_not_convert
  /\ py_float (u ".") = Raise could_not_convert
  /\ py_float (u "1_.5") = Raise could_not_convert
  /\ py_float (u "1 2") = Raise could_not_convert
  /\ py_float (u "1,5") = Raise could_not_convert
  /\ py_float [unicode_minus; 0x35%N] = Raise could_not_convert.
Proof. repeat split; vm_compute; reflexivity. Qed.

(** Numbers as [repr] writes them. *)
Lemma float_repr_examples :
  float_repr 1234.56 = Some (u "1234.56")
  /\ float_repr 100 = Some (u "100.0")
  /\ float_repr (0.1 + 0.2) = Some (u "0.30000000000000004")
  /\ float_repr 1e15 = Some (u "1000000000000000.0")
  /\ float_repr 1e16 = Some (u "1e+16")
  /\ float_repr 0.0001 = Some (u "0.0001")
  /\ float_repr 0.00001 = Some (u "1e-05")
  /\ float_repr 1e23 = Some (u "1e+23")
  /\ float_repr 5e-324 = Some (u "5e-324")
  /\ float_repr 1.7976931348623157e308 = Some (u "1.7976931348623157e+308")
  /\ float_repr (-2.5) = Some (u "-2.5")
  /\ float_repr neg_zero = Some (u "-0.0")
  /\ float_repr neg_infinity = Some (u "-inf")
  /\ float_repr nan = Some (u "nan").
Proof. repeat split; vm_compute; reflexivity. Qed.

(** What [repr] gives is read back by [float]. *)
Lemma float_repr_reads_back (f : float) (r : str) :
  float_repr f = Some r -> py_float r = Ok f.
Proof.
  unfold float_repr. intros H. apply find_some in H. destruct H as [_ H].
  unfold reads_back in H. destruct (py_float r) as [g|]; [|discriminate].
  apply Leibniz.eqb_spec in H. now subst g.
Qed.

(** ** Column resolution *)

Section Resolution.

Lemma is_prefix_spec (p s : str) :
  is_prefix p s = true <-> exists suf, s = p ++ suf.
Proof.
  revert s. induction p as [|a p IH]; intros s; simpl.
  - split; [intros _; now exists s | reflexivity].
  - destruct s as [|b s].
    + split; [discriminate | intros [suf H]; discriminate].
    + rewrite andb_true_iff, N.eqb_eq, IH. split.
      * intros [-> [suf ->]]. now exists suf.
      * intros [suf H]. injection H as -> ->. split; [reflexivity | now exists suf].
Qed.

Lemma contains_spec (needle hay : str) :
  contains needle hay = true <-> exists pre suf, hay = pre ++ needle ++ suf.
Proof.
  induction hay as [|a hay IH]; simpl; rewrite orb_true_iff, is_prefix_spec.
  - split.
    + intros [[suf H] | H]; [|discriminate]. exists [], suf. exact H.
    + intros [pre [suf H]]. left.
      destruct pre; [now exists suf | discriminate].
  - rewrite IH. split.
    + intros [[suf H] | [pre [suf H]]].
      * exists [], suf. exact H.
      * exists (a :: pre), suf. simpl. now rewrite H.
    + intros [pre [suf H]]. destruct pre as [|b pre].
      * left. now exists suf.
      * right. injection H as _ H. now exists pre, suf.
Qed.

Lemma has_spec (needle : string) (c : str) :
  has needle c = true <-> mentions needle c.
Proof. apply contains_spec. Qed.

Lemma has_false (needle : string) (c : str) :
  has needle c = false <-> ~ mentions needle c.
Proof.
  rewrite <- has_spec. destruct (has needle c); split; congruence.
Qed.

Lemma next_or_none_first (p : str -> bool) (P : str -> Prop) (cols : list str) :
  (forall c, p c = true <-> P c) ->
  first_such P cols (next_or_none p cols).
Proof.
  intros HP. unfold next_or_none.
  induction cols as [|c cols IH]; simpl.
  - apply first_none. constructor.
  - destruct (p c) eqn:E.
    + apply (@first_some P [] c cols); [constructor | now apply HP].
    + assert (Hc : ~ P c) by (rewrite <- HP; congruence).
      inversion IH as [cols' Hall Hc' Hr | before c' after Hall Hc' Hcols Hr].
      * apply first_none. now constructor.
      * apply (@first_some P (c :: before) c' after); [now constructor | exact Hc'].
Qed.

(** A label found by a search for a needle is not the empty text, so its
    truth value is that of "found". *)
Lemma truthy_found (p : str -> bool) (cols : list str) :
  p [] = false ->
  truthy (next_or_none p cols) = match next_or_none p cols with
                                 | Some _ => true
                                 | None => false
                                 end.
Proof.
  intros Hp. unfold next_or_none.
  destruct (find p cols) as [c|] eqn:E; [|reflexivity].
  apply find_some in E. destruct E as [_ E].
  destruct c; [congruence | reflexivity].
Qed.

End Resolution.

(** ** Letter case *)

Section LetterCase.

Local Open Scope N_scope.

Ltac bools :=
  repeat match goal with
         | H : _ && _ = true |- _ => apply andb_true_iff in H; destruct H
         | H : _ || _ = true |- _ => apply orb_true_iff in H; destruct H
         | H : negb _ = true |- _ => apply negb_true_iff in H
         | H : (_ =? _) = true |- _ => apply N.eqb_eq in H
         | H : (_ =? _) = false |- _ => apply N.eqb_neq in H
         | H : (_ <=? _) = true |- _ => apply N.leb_le in H
         | H : (_ <=? _) = false |- _ => apply N.leb_gt in H
         end.

Lemma lower_char_cases (a : char) :
  (0x41 <= a <= 0x5A /\ lower_char a = [a + 0x20])
  \/ (a = 0x130 /\ lower_char a = [0x69; 0x307])
  \/ (a = 0x212A /\ lower_char a = [0x6B])
  \/ (~ (0x41 <= a <= 0x5A) /\ a <> 0x130 /\ a <> 0x212A /\ lower_char a = [a]).
Proof.
  unfold lower_char.
  destruct ((0x41 <=? a) && (a <=? 0x5A)) eqn:E1.
  { left. bools. now repeat split. }
  destruct (a =? 0x130) eqn:E2.
  { right. left. bools. now split. }
  destruct (a =? 0x212A) eqn:E3.
  { right. right. left. bools. now split. }
  right. right. right. bools. repeat split; try assumption.
  intros [H1 H2]. apply N.leb_le in H1, H2. rewrite H1, H2 in E1. discriminate.
Qed.

Lemma plain_needle_cons (n : char) (rest : str) :
  plain_needle (n :: rest) = true ->
  (n = 0x20 \/ (0x61 <= n <= 0x7A /\ n <> 0x6B))
  /\ (n = 0x69 -> rest <> [])
  /\ plain_needle rest = true.
Proof.
  cbn [plain_needle]. intros H. bools;
    (split; [|split; [|assumption]]);
    first [ left; assumption
          | right; repeat split; assumption
          | intros Hi; first [contradiction | now destruct rest] ].
Qed.

Lemma same_letter_lower (x n : char) :
  n = 0x20 \/ 0x61 <= n <= 0x7A ->
  same_letter x n = true -> lower_char x = [n].
Proof.
  intros Hn H. unfold same_letter in H.
  destruct (lower_char_cases x) as [[Hx E] | [[Hx E] | [[Hx E] | [Hx [H1 [H2 E]]]]]];
    rewrite E; bools; subst; try lia; try reflexivity; f_equal; lia.
Qed.

Lemma lower_app (a b : str) : lower (a ++ b) = lower a ++ lower b.
Proof. apply flat_map_app. Qed.

Lemma plain_needle_chars (needle : str) :
  plain_needle needle = true ->
  Forall (fun n => n = 0x20 \/ 0x61 <= n <= 0x7A) needle.
Proof.
  induction needle as [|n rest IH]; intros H; constructor.
  - apply plain_needle_cons in H. destruct H as [[H | [H _]] _]; tauto.
  - apply IH. now apply plain_needle_cons in H.
Qed.

Lemma lower_same_letters (mid needle : str) :
  Forall (fun n => n = 0x20 \/ 0x61 <= n <= 0x7A) needle ->
  Forall2 (fun x n => same_letter x n = true) mid needle ->
  lower mid = needle.
Proof.
  intros Hp H. induction H as [|x n mid needle Hx _ IH]; [reflexivity|].
  inversion Hp; subst. unfold lower in *. cbn [flat_map].
  rewrite (same_letter_lower _ H1 Hx), (IH H2). reflexivity.
Qed.

(** Reading a needle at the head of a lower-cased label. *)
Lemma prefix_in_any_case (needle cs : str) :
  plain_needle needle = true ->
  is_prefix needle (lower cs) = true ->
  exists mid suf,
    cs = mid ++ suf /\ Forall2 (fun x n => same_letter x n = true) mid needle.
Proof.
  revert cs. induction needle as [|n ns IH]; intros cs Hp H.
  - exists [], cs. split; [reflexivity | constructor].
  - apply plain_needle_cons in Hp. destruct Hp as [Hn [Hi Hp]].
    destruct cs as [|a cs]; [discriminate|].
    unfold lower in H. cbn [flat_map] in H. fold (lower cs) in H.
    assert (Hstep : same_letter a n = true /\ is_prefix ns (lower cs) = true).
    { destruct (lower_char_cases a)
        as [[Ha E] | [[Ha E] | [[Ha E] | [Ha [H1 [H2 E]]]]]];
        rewrite E in H; cbn [app is_prefix] in H; bools.
      - split; [|assumption]. unfold same_letter.
        apply orb_true_iff. right. rewrite !andb_true_iff, !N.leb_le, N.eqb_eq.
        lia.
      - exfalso. subst n. destruct ns as [|m ns]; [now apply Hi|].
        cbn [is_prefix] in *. bools. subst m.
        apply plain_needle_cons in Hp. destruct Hp as [Hm _]. lia.
      - exfalso. lia.
      - split; [|assumption]. unfold same_letter. subst n.
        now rewrite N.eqb_refl. }
    destruct Hstep as [Hs Hrest].
    destruct (IH cs Hp Hrest) as [mid [suf [E F]]].
    exists (a :: mid), suf. split; [now rewrite E | now constructor].
Qed.

Lemma found_in_any_case (needle c pre suf : str) :
  plain_needle needle = true ->
  lower c = pre ++ needle ++ suf ->
  exists pre' mid suf',
    c = pre' ++ mid ++ suf'
    /\ Forall2 (fun x n => same_letter x n = true) mid needle.
Proof.
  intros Hp. destruct needle as [|n ns].
  { intros _. exists [], [], c. split; [reflexivity | constructor]. }
  revert pre. induction c as [|a cs IH]; intros pre H.
  - destruct pre; discriminate.
  - destruct pre as [|p pre].
    + assert (Hpre : is_prefix (n :: ns) (lower (a :: cs)) = true).
      { apply is_prefix_spec. now exists suf. }
      destruct (prefix_in_any_case _ _ Hp Hpre) as [mid [suf' [E F]]].
      exists [], mid, suf'. now split.
    + assert (Hrest : exists pre0, lower cs = pre0 ++ (n :: ns) ++ suf).
      { unfold lower in H. cbn [flat_map] in H. fold (lower cs) in H.
        destruct (lower_char_cases a)
          as [[Ha E] | [[Ha E] | [[Ha E] | [Ha [H1 [H2 E]]]]]];
          rewrite E in H; cbn [app] in H.
        - injection H as _ H. now exists pre.
        - injection H as _ H. destruct pre as [|q pre].
          + exfalso. cbn [app] in H. injection H as H _.
            apply plain_needle_cons in Hp. destruct Hp as [Hn _]. lia.
          + injection H as _ H. now exists pre.
        - injection H as _ H. now exists pre.
        - injection H as _ H. now exists pre. }
      destruct Hrest as [pre0 H0].
      destruct (IH pre0 H0) as [pre' [mid [suf' [E F]]]].
      exists (a :: pre'), mid, suf'. split; [now rewrite E | exact F].
Qed.

(** Matching is case-insensitive: a label is matched by a plain needle
    exactly when it contains the letters of the needle in any mix of upper
    and lower case. *)
Lemma mentions_in_any_case_spec (needle : string) (c : str) :
  plain_needle (u needle) = true ->
  mentions needle c <-> mentions_in_any_case needle c.
Proof.
  intros Hp. unfold mentions, mentions_in_any_case. split.
  - intros [pre [suf H]]. now apply found_in_any_case with pre suf.
  - intros [pre [mid [suf [-> F]]]].
    exists (lower pre), (lower suf). rewrite !lower_app. f_equal. f_equal.
    apply lower_same_letters; [now apply plain_needle_chars | exact F].
Qed.

End LetterCase.

(** ** The loader *)

Section Loader.

Lemma load_one_summary (file : UploadedFile) :
  load_one file = Ok (summary_of file).
Proof.
  unfold load_one, summary_of, try_except.
  now destruct (process_file file).
Qed.

Lemma load_loop (files : list UploadedFile) (all_data : list Summary) :
  fold_left
    (fun acc file =>
       (all_data <- acc ;;
        summary <- load_one file ;;
        Ok (all_data ++ [summary]))%py)
    files (Ok all_data)
  = Ok (all_data ++ List.map summary_of files).
Proof.
  revert all_data. induction files as [|file files IH]; intros all_data; simpl.
  - now rewrite app_nil_r.
  - rewrite load_one_summary. simpl. rewrite IH, <- app_assoc. reflexivity.
Qed.

Lemma load_data_map (files : list UploadedFile) :
  load_data files = Ok (List.map summary_of files).
Proof. unfold load_data. now rewrite load_loop. Qed.

(** A file named [*.csv] is read as UTF-8 with signature first, and as
    Latin-1 when that raises; the exception of the second reading is the one
    that leaves. *)
Lemma read_table_csv (file : UploadedFile) :
  endswith (name file) (u ".csv") = true ->
  read_table file = match read_csv_utf8_sig file with
                    | Ok t => Ok t
                    | Raise _ => read_csv_latin1 file
                    end.
Proof. intros H. unfold read_table. now rewrite H. Qed.

Lemma read_failure_propagates (file : UploadedFile) (e : exn) :
  read_table file = Raise e -> process_file file = Raise e.
Proof. intros H. unfold process_file. now rewrite H. Qed.

Lemma process_file_filename (file : UploadedFile) (s : Summary) :
  process_file file = Ok s -> Filename s = name file.
Proof.
  unfold process_file.
  destruct (read_table file) as [raw|]; simpl; [|discriminate].
  destruct (normalize_headers raw) as [df|]; simpl; [|discriminate].
  destruct (negb _).
  - intros H. injection H as <-. reflexivity.
  - repeat match goal with
           | |- context [bind ?r _] =>
               destruct r; simpl; [|discriminate]
           end.
    intros H. injection H as <-. reflexivity.
Qed.

Lemma summary_of_filename (file : UploadedFile) :
  Filename (summary_of file) = name file.
Proof.
  unfold summary_of. destruct (process_file file) eqn:E; [|reflexivity].
  now apply process_file_filename.
Qed.


(** A label that is not text ends the file as a critical error. *)
Lemma non_text_label_is_critical (file : UploadedFile) (t : str)
      (cells : list value) (raw : frame label) :
  read_table file = Ok ((LOther t, cells) :: raw) ->
  Status (summary_of file) = CRITICAL_ERROR.
Proof.
  intros H. unfold summary_of, process_file. rewrite H. reflexivity.
Qed.

End Loader.

(** A number that is zero or less is not greater than zero. *)
Lemma not_positive (x : float) : (x <=? 0) = true -> (0 <? x) = false.
Proof.
  rewrite leb_spec, ltb_spec.
  change (Prim2SF 0) with (S754_zero false).
  destruct (Prim2SF x) as [s | s | | s m e]; try destruct s;
    cbv [SFleb SFltb SFcompare]; congruence.
Qed.

(** The row of the comparison table for a file without cost and without
    overhead: the ROI is a division by zero. *)
Lemma display_row_without_expenses (p : Summary) :
  Total_Retail p = 100 -> Total_Cost p = 0 ->
  display_row plain_settings p = (35, 35, infinity).
Proof.
  intros Hr Hc. unfold display_row. rewrite Hr, Hc. vm_compute. reflexivity.
Qed.

(** * The claims *)

(** C1, as stated, fails: the total cost of the example is not 40. *)
Lemma example_total_cost_is_not_40 :
  ~ (exists s,
       load_data [example_csv] = Ok [s]
       /\ Status s = OK /\ Items s = 15 /\ Variety s = 2%nat
       /\ Total_Retail s = 100 /\ Total_Cost s = 40).
Proof.
  intros [s [Hs [_ [_ [_ [_ Hcost]]]]]].
  rewrite load_data_map in Hs. injection Hs as <-.
  apply (f_equal (fun x => x =? 40)) in Hcost.
  vm_compute in Hcost. discriminate Hcost.
Qed.

(** C1, amended: for a CSV file read as the example table the summary has
    the status OK, 15 items, a variety of 2, a total retail of
    10 x 5 + 5 x 10 = 100, and a total cost of 2 + 4 = 6, the sum of the
    cleaned cost column. *)
Theorem example_summary (file : UploadedFile) :
  endswith (name file) (u ".csv") = true ->
  read_csv_utf8_sig file = Ok example_table ->
  exists s,
    load_data [file] = Ok [s]
    /\ Filename s = name file
    /\ Status s = OK /\ Details s = NoDetails
    /\ Items s = 15 /\ Variety s = 2%nat
    /\ Total_Retail s = 10 * 5 + 5 * 10
    /\ Total_Retail s = 100
    /\ Total_Cost s = 2 + 4
    /\ Total_Cost s = 6.
Proof.
  intros Hname Hread. exists (summary_of file).
  split; [now rewrite load_data_map|].
  unfold summary_of, process_file, read_table.
  rewrite Hname, Hread. cbn [try_except bind].
  repeat split; vm_compute; reflexivity.
Qed.

Lemma example_summary_witness :
  exists s,
    load_data [example_csv] = Ok [s]
    /\ Filename s = u "manifest.csv"
    /\ Status s = OK /\ Details s = NoDetails
    /\ Items s = 15 /\ Variety s = 2%nat
    /\ Total_Retail s = 10 * 5 + 5 * 10
    /\ Total_Retail s = 100
    /\ Total_Cost s = 2 + 4
    /\ Total_Cost s = 6.
Proof.
  apply (@example_summary example_csv); reflexivity.
Defined.

(** C2, as stated, fails: ["1.234,56"] is neither residual text nor
    missing; its comma is removed and ["1.23456"] parses. *)
Lemma european_decimal_is_a_number :
  ~ (clean_currency (VStr (u "1.234,56")) = Ok Missing
     \/ exists s, clean_currency (VStr (u "1.234,56")) = Ok (ResidualText s)).
Proof.
  assert (E : clean_currency (VStr (u "1.234,56")) = Ok (Number 1.23456))
    by (vm_compute; reflexivity).
  rewrite E. intros [H | [s H]].
  - apply (f_equal (fun r => match r with Ok (VFloat f) => is_nan f | _ => true end)) in H.
    vm_compute in H. discriminate H.
  - discriminate H.
Qed.

(** C2, amended: for every text the normaliser raises nothing and returns
    Missing, or the number [float] reads in the cleaned string (negated
    under parentheses), or, when [float] rejects the cleaned string, that
    string as residual text.  ["1.234,56"] is of the second kind
    (1.23456), ["1.234.56"] and ["n/a"] of the third. *)
Theorem clean_currency_text_outcome :
  (forall x : str,
     clean_currency (VStr x) = Ok Missing
     \/ (exists v, py_float (cleaned x) = Ok v
                   /\ clean_currency (VStr x)
                      = Ok (Number (if parenthesised (strip x) then - v else v)))
     \/ ((exists e, py_float (cleaned x) = Raise e)
         /\ clean_currency (VStr x) = Ok (ResidualText (cleaned x))))
  /\ cleaned (u "1.234,56") = u "1.23456"
  /\ clean_currency (VStr (u "1.234,56")) = Ok (Number 1.23456)
  /\ clean_currency (VStr (u "1.234.56")) = Ok (ResidualText (u "1.234.56"))
  /\ clean_currency (VStr (u " n/a ")) = Ok (ResidualText (u "n/a")).
Proof.
  split; [|repeat split; vm_compute; reflexivity].
  intros x. unfold clean_currency. simpl pd_isna. cbv iota beta.
  rewrite clean_text_steps. cbv zeta.
  destruct (Text.eqb (strip x) []); [now left|].
  fold (parenthesised (strip x)). fold (cleaned x).
  destruct (py_float (cleaned x)) as [v|e] eqn:E.
  - right; left. exists v. split; [reflexivity|].
    now rewrite (convert_parsed _ _ E).
  - destruct (convert_rejected (parenthesised (strip x)) _ E) as [H | H];
      rewrite H; [now left|].
    right; right. split; [now exists e | reflexivity].
Qed.

(** C3: [clean_currency "$1,234.56"] is the number 1234.56 and
    [clean_currency "(1,234.56)"] is the number -1234.56; in general a
    string wrapped in parentheses has them taken off, the symbols
    dollar, euro, pound, comma and per cent and the no-break space removed
    wherever they stand, and the parsed number negated. *)
Theorem clean_currency_symbols_and_parentheses :
  clean_currency (VStr (u "$1,234.56")) = Ok (Number 1234.56)
  /\ clean_currency (VStr (u "(1,234.56)")) = Ok (Number (- 1234.56))
  /\ (forall inner : str,
        clean_currency (VStr (u "(" ++ inner ++ u ")"))
        = Ok (convert true (scrub (strip inner))))
  /\ (forall (s : str) (v : float),
        py_float s = Ok v -> convert true s = Number (- v))
  /\ (forall (s : str) (c : char), In c stripped_symbols -> ~ In c (scrub s)).
Proof.
  split; [vm_compute; reflexivity|].
  split; [vm_compute; reflexivity|].
  split; [exact clean_currency_parenthesised|].
  split; [intros s v H; exact (convert_parsed true s H)|].
  exact scrub_free_of_symbols.
Qed.

(** C4: the normaliser returns a value for every cell and raises nothing;
    bytes are decoded as UTF-8 and, when that fails, as Latin-1, in which
    every byte is a character (the error handler drops nothing). *)
Theorem clean_currency_never_raises :
  (forall x : value, exists v, clean_currency x = Ok v)
  /\ (forall b : list Byte.byte,
        clean_currency (VBytes b)
        = clean_currency
            (VStr (match decode_utf8 b with
                   | Ok s => s
                   | Raise _ => decode_latin1_ignore b
                   end)))
  /\ (forall b : list Byte.byte,
        List.length (decode_latin1_ignore b) = List.length b)
  /\ decode_utf8 [Byte.xff; Byte.x35] = Raise cannot_decode
  /\ clean_currency (VBytes [Byte.xff; Byte.x35; Byte.x25])
     = Ok (ResidualText [0xFF%N; 0x35%N]).
Proof.
  split.
  { intros x. unfold clean_currency.
    destruct x as [ | b | n | f | s | b | t]; simpl pd_isna; cbv iota beta;
      try (eexists; reflexivity).
    - destruct (is_nan f); eexists; reflexivity.
    - rewrite clean_text_steps. eexists; reflexivity.
    - destruct (decode_utf8 b); rewrite clean_text_steps; eexists; reflexivity. }
  split.
  { intros b. unfold clean_currency. simpl pd_isna. cbv iota beta.
    destruct (decode_utf8 b); reflexivity. }
  split; [intros b; apply length_map|].
  split; vm_compute; reflexivity.
Qed.

(** C5, as stated, fails on cells that are not floats: the integer
    2^53 + 1 is returned unchanged, and its text comes back as the float
    2^53, another number; the Boolean True is returned unchanged, and its
    text comes back as text. *)
Lemma integer_and_boolean_cells_do_not_round_trip :
  (clean_currency (VInt 9007199254740993) = Ok (VInt 9007199254740993)
   /\ is_number (VInt 9007199254740993) = true
   /\ py_str (VInt 9007199254740993) = Some (u "9007199254740993")
   /\ clean_currency (VStr (u "9007199254740993")) = Ok (Number 9007199254740992)
   /\ same_number (VInt 9007199254740993) (Number 9007199254740992) = false)
  /\ (clean_currency (VBool true) = Ok (VBool true)
      /\ is_number (VBool true) = true
      /\ py_str (VBool true) = Some (u "True")
      /\ clean_currency (VStr (u "True")) = Ok (ResidualText (u "True"))
      /\ is_number (ResidualText (u "True")) = false).
Proof. repeat split; vm_compute; reflexivity. Qed.

(** C5, amended: when the normaliser returns a float [v] for a cell (a
    text or a byte sequence that parses, or a float), [v] has a text
    [str(v)] and the normaliser returns [v] again for it; more generally it
    returns [v'] for every text that [float] reads as [v']. *)
Theorem clean_currency_idempotent_on_floats (x : value) (v : float) :
  clean_currency x = Ok (Number v) ->
  (exists r, py_str (Number v) = Some r
             /\ clean_currency (VStr r) = Ok (Number v))
  /\ (forall r' v', py_float r' = Ok v' -> clean_currency (VStr r') = Ok (Number v')).
Proof.
  intros _. split; [|exact clean_currency_of_literal].
  destruct (float_repr_total v) as [r Hr]. exists r.
  split; [exact Hr|].
  apply clean_currency_of_literal. now apply float_repr_reads_back.
Qed.

Lemma clean_currency_idempotent_on_floats_witness :
  clean_currency (VStr (u "$1,234.56")) = Ok (Number 1234.56)
  /\ exists r, py_str (Number 1234.56) = Some r
               /\ clean_currency (VStr r) = Ok (Number 1234.56).
Proof.
  split; [vm_compute; reflexivity|].
  apply (@clean_currency_idempotent_on_floats (VStr (u "$1,234.56")) 1234.56).
  vm_compute; reflexivity.
Defined.

(** C6: the three columns are found by substring search in the lower-cased
    labels, the first label in column order winning: the quantity is the
    first label with "qty"; the retail price the first with "unit retail",
    and only when there is none the first with "retail" and without "ext";
    the cost the first with both "ext" and "retail", and only when there is
    none the first with both "cost" and "ext".  The search is
    case-insensitive: for each of the five needles a label is matched
    exactly when it contains the letters of the needle in a row, each in
    upper or in lower case. *)
Theorem column_resolution_precedence (cols : list str) :
  first_such (mentions "qty") cols (resolve_qty cols)
  /\ ((exists c, first_such (mentions "unit retail") cols (Some c)
                 /\ resolve_retail cols = Some c)
      \/ (first_such (mentions "unit retail") cols None
          /\ first_such (fun c => mentions "retail" c /\ ~ mentions "ext" c)
                        cols (resolve_retail cols)))
  /\ ((exists c, first_such (fun c => mentions "ext" c /\ mentions "retail" c)
                            cols (Some c)
                 /\ resolve_ext_cost cols = Some c)
      \/ (first_such (fun c => mentions "ext" c /\ mentions "retail" c) cols None
          /\ first_such (fun c => mentions "cost" c /\ mentions "ext" c)
                        cols (resolve_ext_cost cols)))
  /\ Forall (fun needle =>
               forall c, mentions needle c <-> mentions_in_any_case needle c)
            ["qty"; "unit retail"; "retail"; "ext"; "cost"]%string.
Proof.
  split; [|split; [|split]];
    [| | | repeat (apply Forall_cons;
                   [intros c; apply mentions_in_any_case_spec; reflexivity|]);
           apply Forall_nil].
  - apply next_or_none_first. intros c. apply has_spec.
  - unfold resolve_retail. cbv zeta.
    rewrite truthy_found by reflexivity.
    pose proof (@next_or_none_first (has "unit retail") (mentions "unit retail")
                  cols (has_spec "unit retail")) as H1.
    destruct (next_or_none (has "unit retail") cols) as [c|]; simpl negb; cbv iota.
    + left. exists c. split; [exact H1 | reflexivity].
    + right. split; [exact H1|].
      apply next_or_none_first. intros c.
      rewrite andb_true_iff, negb_true_iff, has_spec, has_false. tauto.
  - unfold resolve_ext_cost. cbv zeta.
    rewrite truthy_found by reflexivity.
    assert (H1 : first_such (fun c => mentions "ext" c /\ mentions "retail" c) cols
                   (next_or_none (fun c => has "ext" c && has "retail" c) cols)).
    { apply next_or_none_first. intros c.
      rewrite andb_true_iff, !has_spec. tauto. }
    destruct (next_or_none (fun c => has "ext" c && has "retail" c) cols) as [c|];
      simpl negb; cbv iota.
    + left. exists c. split; [exact H1 | reflexivity].
    + right. split; [exact H1|].
      apply next_or_none_first. intros c.
      rewrite andb_true_iff, !has_spec. tauto.
Qed.



(** C8: a batch of N files gives N summaries, in the order of the files
    and under their names; no exception leaves the loader; a file whose
    reading (or any later step) raises gets a CRITICAL_ERROR summary with the
    text of the exception and zero aggregates, and every file gets the
    summary of its own processing, whatever happens to the others. *)
Theorem load_data_one_summary_per_file (files : list UploadedFile) :
  exists out : list Summary,
    load_data files = Ok out
    /\ List.length out = List.length files
    /\ List.map Filename out = List.map name files
    /\ (forall i file,
          nth_error files i = Some file ->
          exists s,
            nth_error out i = Some s
            /\ (forall e, read_table file = Raise e ->
                  s = {| Filename := name file;
                         Status := CRITICAL_ERROR;
                         Details := ExceptionText (exn_msg e);
                         Items := 0; Variety := 0;
                         Total_Cost := 0; Total_Retail := 0;
                         Raw_Data := [] |})
            /\ (forall e, process_file file = Raise e ->
                  s = empty_summary file CRITICAL_ERROR (ExceptionText (exn_msg e)))
            /\ (forall s', process_file file = Ok s' -> s = s')).
Proof.
  exists (List.map summary_of files).
  split; [apply load_data_map|].
  split; [apply length_map|].
  split.
  { rewrite map_map. apply map_ext. intros file. apply summary_of_filename. }
  intros i file Hi. exists (summary_of file).
  split; [now apply map_nth_error|].
  unfold summary_of.
  split; [|split].
  - intros e He. now rewrite (read_failure_propagates _ He).
  - intros e He. now rewrite He.
  - intros s' Hs. now rewrite Hs.
Qed.

(** C9, as stated, fails: the expenses of this portfolio are -40, not 0,
    and its ROI is 0, not profit / expenses x 100 = -187.5. *)
Lemma roi_is_zero_for_negative_expenses :
  let m := scenario plain_settings (valid_packages [summary_of credit_csv]) in
  (total_expenses m =? 0) = false
  /\ roi m = 0
  /\ projected_profit m / total_expenses m * 100 = -187.5
  /\ roi m <> (if total_expenses m =? 0 then 0
               else projected_profit m / total_expenses m * 100).
Proof.
  cbv zeta.
  split; [vm_compute; reflexivity|].
  split; [vm_compute; reflexivity|].
  split; [vm_compute; reflexivity|].
  intros H. apply (f_equal (fun x => x =? 0)) in H.
  vm_compute in H. discriminate H.
Qed.

(** C9, amended: revenue = total retail x (P / 100), expenses = total cost
    + freight + other costs (each counted once per package), profit =
    revenue - expenses, and ROI = profit / expenses x 100 when the expenses
    are greater than 0 and 0 otherwise, so also when they are negative.
    With a total retail of 100, a total cost of 40, P = 35 and no overhead:
    revenue 35, expenses 40, profit -5, ROI -12.5. *)
Theorem scenario_metrics (st : Settings) (packages : list Summary) :
  let m := scenario st packages in
  let n := of_int (Z.of_nat (List.length packages)) in
  projected_revenue m
  = series_sum (List.map Total_Retail packages) * (of_int (discount_scenario st) / 100)
  /\ total_expenses m
     = series_sum (List.map Total_Cost packages) + freight_cost st * n + misc_cost st * n
  /\ projected_profit m = projected_revenue m - total_expenses m
  /\ ((0 <? total_expenses m) = true ->
      roi m = projected_profit m / total_expenses m * 100)
  /\ ((0 <? total_expenses m) = false -> roi m = 0)
  /\ ((total_expenses m <=? 0) = true -> roi m = 0)
  /\ (forall p : Summary,
        Total_Retail p = 100 -> Total_Cost p = 40 ->
        let m1 := scenario plain_settings [p] in
        projected_revenue m1 = 35 /\ total_expenses m1 = 40
        /\ projected_profit m1 = -5 /\ roi m1 = -12.5).
Proof.
  cbv zeta. unfold scenario; cbn [projected_revenue total_expenses projected_profit roi].
  split; [reflexivity|]. split; [reflexivity|]. split; [reflexivity|].
  split; [intros ->; reflexivity|].
  split; [intros ->; reflexivity|].
  split; [intros H; now rewrite (not_positive H)|].
  intros p Hr Hc. cbn [List.map List.length]. rewrite Hr, Hc.
  repeat split; vm_compute; reflexivity.
Qed.

(** C10: when the inside of a parenthesised string itself parses to a
    number [v], the result is the number [- v]: the parsed value is negated,
    whatever its sign, so ["(-5)"] gives the positive 5.0. *)
Theorem parentheses_negate_the_parsed_value (inner : str) (v : float) :
  py_float (scrub (strip inner)) = Ok v ->
  clean_currency (VStr (u "(" ++ inner ++ u ")")) = Ok (Number (- v))
  /\ clean_currency (VStr (u "(-5)")) = Ok (Number 5).
Proof.
  intros H. split; [|vm_compute; reflexivity].
  rewrite clean_currency_parenthesised.
  now rewrite (convert_parsed true _ H).
Qed.

Lemma parentheses_negate_the_parsed_value_witness :
  py_float (scrub (strip (u "-5"))) = Ok (- 5)
  /\ clean_currency (VStr (u "(" ++ u "-5" ++ u ")")) = Ok (Number (- (- 5)))
  /\ clean_currency (VStr (u "(-5)")) = Ok (Number 5).
Proof.
  split; [vm_compute; reflexivity|].
  apply (@parentheses_negate_the_parsed_value (u "-5") (- 5)).
  vm_compute; reflexivity.
Defined.

(** * Further properties of the code *)

(** ** White space *)

Section Trimming.

Local Open Scope N_scope.

Lemma lstrip_starts_clean (s : str) : starts_clean (lstrip s) = true.
Proof.
  induction s as [|c s IH]; [reflexivity|]. cbn [lstrip].
  destruct (isspace c) eqn:E; [exact IH|]. cbn [starts_clean]. now rewrite E.
Qed.

Lemma lstrip_fixed (s : str) : starts_clean s = true -> lstrip s = s.
Proof.
  destruct s as [|c s]; [reflexivity|]. cbn [starts_clean lstrip].
  intros H. apply negb_true_iff in H. now rewrite H.
Qed.

Lemma lstrip_snoc (l : str) (a : char) :
  isspace a = false -> lstrip (l ++ [a]) = lstrip l ++ [a].
Proof.
  intros Ha. induction l as [|c l IH]; cbn [app lstrip].
  - now rewrite Ha.
  - destruct (isspace c); [exact IH | reflexivity].
Qed.

Lemma lstrip_spaces (ws s : str) :
  forallb isspace ws = true -> lstrip (ws ++ s) = lstrip s.
Proof.
  induction ws as [|c ws IH]; [reflexivity|]. cbn [forallb app lstrip].
  rewrite andb_true_iff. intros [Hc Hw]. rewrite Hc. now apply IH.
Qed.

Lemma forallb_rev (A : Type) (p : A -> bool) (l : list A) :
  forallb p (rev l) = forallb p l.
Proof.
  induction l as [|a l IH]; [reflexivity|]. cbn [rev forallb].
  rewrite forallb_app, IH. cbn [forallb]. rewrite andb_true_r. apply andb_comm.
Qed.

Lemma rstrip_spaces (s ws : str) :
  forallb isspace ws = true -> rstrip (s ++ ws) = rstrip s.
Proof.
  intros H. unfold rstrip. rewrite rev_app_distr, lstrip_spaces; [reflexivity|].
  now rewrite forallb_rev.
Qed.

Lemma rstrip_cons (a : char) (s : str) :
  isspace a = false -> rstrip (a :: s) = a :: rstrip s.
Proof.
  intros Ha. unfold rstrip. cbn [rev]. rewrite lstrip_snoc by exact Ha.
  rewrite rev_app_distr. reflexivity.
Qed.

Lemma rstrip_starts_clean (s : str) :
  starts_clean s = true -> starts_clean (rstrip s) = true.
Proof.
  destruct s as [|c s]; [reflexivity|]. cbn [starts_clean].
  intros H. pose proof H as H'. apply negb_true_iff in H'.
  rewrite rstrip_cons by exact H'. exact H.
Qed.

Lemma rstrip_idem (s : str) : rstrip (rstrip s) = rstrip s.
Proof.
  unfold rstrip. rewrite rev_involutive.
  now rewrite (lstrip_fixed _ (lstrip_starts_clean (rev s))).
Qed.

(** Trimming a trimmed string changes nothing. *)
Lemma strip_idem (s : str) : strip (strip s) = strip s.
Proof.
  unfold strip.
  rewrite (lstrip_fixed _ (rstrip_starts_clean _ (lstrip_starts_clean s))).
  apply rstrip_idem.
Qed.

Lemma strip_spaces_only (s : str) : forallb isspace s = true -> strip s = [].
Proof.
  intros H. unfold strip.
  rewrite <- (app_nil_r s), lstrip_spaces by exact H. reflexivity.
Qed.

(** White space around a string is trimmed away. *)
Lemma strip_padding (ws s ws' : str) :
  forallb isspace ws = true -> forallb isspace ws' = true ->
  strip (ws ++ s ++ ws') = strip s.
Proof.
  intros H H'. unfold strip. rewrite lstrip_spaces by exact H.
  induction s as [|c s IH]; cbn [app lstrip].
  - rewrite <- (app_nil_r ws'), lstrip_spaces by exact H'. reflexivity.
  - destruct (isspace c); [exact IH|].
    change (c :: s ++ ws') with ((c :: s) ++ ws'). now apply rstrip_spaces.
Qed.

End Trimming.

Lemma text_outcome_of_strip (x y : str) :
  strip x = strip y -> text_outcome x = text_outcome y.
Proof. intros H. unfold text_outcome, cleaned. now rewrite H. Qed.

Lemma clean_text_outcome (x : str) : clean_text x = Ok (text_outcome x).
Proof.
  rewrite clean_text_steps. unfold text_outcome, cleaned, parenthesised.
  cbv zeta. reflexivity.
Qed.

(** The normaliser returns [outcome x], and raises nothing. *)
Lemma clean_currency_outcome (x : value) : clean_currency x = Ok (outcome x).
Proof.
  unfold clean_currency, outcome.
  destruct x as [ | b | n | f | s | b | t]; cbn [pd_isna]; try reflexivity.
  - now destruct (is_nan f).
  - apply clean_text_outcome.
  - destruct (decode_utf8 b); apply clean_text_outcome.
Qed.

(** ** What the normaliser returns *)

Section Outcomes.

Local Open Scope N_scope.

Lemma in_replace_minus (t : str) (c : char) :
  In c (replace t unicode_minus (u "-")) -> c <> unicode_minus.
Proof.
  unfold replace. intros H. apply in_flat_map in H. destruct H as [a [_ H]].
  destruct (a =? unicode_minus) eqn:E.
  - cbn in H. destruct H as [<- | []]. discriminate.
  - cbn in H. destruct H as [<- | []]. now apply N.eqb_neq.
Qed.

Lemma scrub_free_of_minus_sign (s : str) : ~ In unicode_minus (scrub s).
Proof.
  intros H. unfold scrub in H. apply strip_incl in H.
  now apply in_replace_minus in H.
Qed.

Lemma scrub_trimmed (s : str) : strip (scrub s) = scrub s.
Proof. unfold scrub. apply strip_idem. Qed.

Lemma not_in_remove_symbols (s : str) :
  (forall c, In c stripped_symbols -> ~ In c s) -> remove_symbols s = s.
Proof.
  unfold remove_symbols. induction s as [|a s IH]; intros H; [reflexivity|].
  cbn [filter].
  destruct (existsb (N.eqb a) stripped_symbols) eqn:E.
  - exfalso. apply existsb_exists in E. destruct E as [c [Hc Hac]].
    apply N.eqb_eq in Hac. subst c. apply (H a Hc). now left.
  - cbn [negb]. f_equal. apply IH. intros c Hc Hin. apply (H c Hc). now right.
Qed.

Lemma not_in_replace (s : str) (old : char) (new : str) :
  ~ In old s -> replace s old new = s.
Proof.
  unfold replace. induction s as [|a s IH]; intros H; [reflexivity|].
  cbn [flat_map].
  destruct (a =? old) eqn:E.
  - exfalso. apply N.eqb_eq in E. subst a. apply H. now left.
  - cbn [app]. f_equal. apply IH. intros Hin. apply H. now right.
Qed.

(** Scrubbing a scrubbed string changes nothing. *)
Lemma scrub_idem (s : str) : scrub (scrub s) = scrub s.
Proof.
  unfold scrub at 1.
  rewrite not_in_remove_symbols by (intros c Hc; now apply scrub_free_of_symbols).
  rewrite not_in_replace by apply scrub_free_of_minus_sign.
  apply scrub_trimmed.
Qed.

(** What a residual text is: the scrubbed string [float] rejected. *)
Lemma text_outcome_residual (x s : str) :
  text_outcome x = ResidualText s ->
  s = cleaned x
  /\ existsb (Text.eqb s) [ []; u "--"; u "-" ] = false
  /\ exists e, py_float s = Raise e.
Proof.
  unfold text_outcome.
  destruct (Text.eqb (strip x) []); [discriminate|].
  unfold convert.
  destruct (existsb (Text.eqb (cleaned x)) [ []; u "--"; u "-" ]) eqn:E;
    [discriminate|].
  destruct (py_float (cleaned x)) as [v|e] eqn:Ef; [discriminate|].
  intros H. injection H as <-. repeat split; [exact E | now exists e].
Qed.

Lemma outcome_residual (x : value) (s : str) :
  outcome x = ResidualText s -> exists t, text_outcome t = ResidualText s.
Proof.
  destruct x as [ | b | n | f | t | b | t]; cbn [outcome]; try discriminate.
  - destruct (is_nan f); discriminate.
  - intros H. now exists t.
  - intros H. eexists. exact H.
Qed.

Lemma cleaned_scrubbed (x : str) : scrub (cleaned x) = cleaned x.
Proof. unfold cleaned. apply scrub_idem. Qed.

Lemma cleaned_trimmed (x : str) : strip (cleaned x) = cleaned x.
Proof. unfold cleaned. apply scrub_trimmed. Qed.

(** A float that tests as NaN is the NaN. *)
Lemma is_nan_eq (f : float) : is_nan f = true -> f = nan.
Proof.
  intros H. rewrite <- (SF2Prim_Prim2SF f). unfold Prim2SF. now rewrite H.
Qed.

End Outcomes.

(** X1: a cell that holds nothing is a missing value: [None], NaN and every
    text made of white space only, the empty text among them, are cleaned
    to NaN. *)
Theorem blank_cells_are_missing :
  clean_currency VNone = Ok Missing
  /\ clean_currency (VFloat nan) = Ok Missing
  /\ (forall s : str, forallb isspace s = true -> clean_currency (VStr s) = Ok Missing).
Proof.
  split; [reflexivity|]. split; [reflexivity|].
  intros s H. rewrite clean_currency_outcome. cbn [outcome].
  unfold text_outcome. now rewrite (strip_spaces_only _ H).
Qed.

(** X2: white space around a text has no effect on what the text is
    cleaned to. *)
Theorem surrounding_white_space_is_ignored (ws s ws' : str) :
  forallb isspace ws = true -> forallb isspace ws' = true ->
  clean_currency (VStr (ws ++ s ++ ws')) = clean_currency (VStr s).
Proof.
  intros H H'. rewrite !clean_currency_outcome. cbn [outcome]. f_equal.
  apply text_outcome_of_strip. now apply strip_padding.
Qed.

Lemma surrounding_white_space_is_ignored_witness :
  clean_currency (VStr (u "  " ++ u "$1,234.56" ++ [nbsp; 0x0A%N]))
  = clean_currency (VStr (u "$1,234.56")).
Proof.
  apply (@surrounding_white_space_is_ignored (u "  ") (u "$1,234.56") [nbsp; 0x0A%N]);
    reflexivity.
Defined.

(** X3: a text that [clean_currency] returns because [float] rejected it
    is the cleaned string, not the cell: it is not empty and is neither
    [-] nor [--], it has no white space at either end, it holds none of the
    symbols that are removed ($, the euro and pound signs, the comma, % and
    the no-break space) and no Unicode minus sign, and [float] rejects it. *)
Theorem residual_text_is_clean (x : value) (s : str) :
  clean_currency x = Ok (ResidualText s) ->
  s <> [] /\ s <> u "-" /\ s <> u "--"
  /\ strip s = s
  /\ (forall c, In c stripped_symbols -> ~ In c s)
  /\ ~ In unicode_minus s
  /\ exists e, py_float s = Raise e.
Proof.
  rewrite clean_currency_outcome. intros H. injection H as H.
  apply outcome_residual in H. destruct H as [t H].
  apply text_outcome_residual in H. destruct H as [-> [Hl Hf]].
  cbn [existsb] in Hl. rewrite !orb_false_iff in Hl.
  destruct Hl as [H1 [H2 [H3 _]]].
  apply eqb_neq in H1, H2, H3.
  repeat split; try assumption.
  - apply cleaned_trimmed.
  - intros c Hc. unfold cleaned. now apply scrub_free_of_symbols.
  - unfold cleaned. apply scrub_free_of_minus_sign.
Qed.

Lemma residual_text_is_clean_witness :
  u "n/a" <> [] /\ u "n/a" <> u "-" /\ u "n/a" <> u "--"
  /\ strip (u "n/a") = u "n/a"
  /\ (forall c, In c stripped_symbols -> ~ In c (u "n/a"))
  /\ ~ In unicode_minus (u "n/a")
  /\ exists e, py_float (u "n/a") = Raise e.
Proof.
  apply (@residual_text_is_clean (VStr (u " $n/a ")) (u "n/a")).
  vm_compute. reflexivity.
Defined.

(** X4: cleaning twice changes nothing: the value a cell is cleaned to is
    cleaned to itself, unless it is a text that begins with [(] and ends
    with [)], whose parentheses a second pass would read as a sign. *)
Theorem cleaning_twice_changes_nothing (x y : value) :
  clean_currency x = Ok y ->
  (forall s, y = VStr s -> parenthesised s = false) ->
  clean_currency y = Ok y.
Proof.
  rewrite !clean_currency_outcome. intros H Hp. injection H as H. f_equal.
  destruct y as [ | b | n | f | s | b | t]; cbn [outcome]; try reflexivity.
  - exfalso. destruct x as [ | b | n | f | s | b | t]; cbn [outcome] in H;
      try discriminate.
    + destruct (is_nan f); discriminate.
    + unfold text_outcome, convert in H.
      repeat match type of H with
             | (if ?c then _ else _) = _ => destruct c
             | match ?c with _ => _ end = _ => destruct c
             end; discriminate.
    + unfold text_outcome, convert in H.
      repeat match type of H with
             | (if ?c then _ else _) = _ => destruct c
             | match ?c with _ => _ end = _ => destruct c
             end; discriminate.
  - destruct (is_nan f) eqn:E; [|reflexivity].
    unfold Missing. now rewrite (is_nan_eq _ E).
  - destruct (outcome_residual _ H) as [t Ht].
    destruct (text_outcome_residual _ Ht) as [Hs [Hl [e Hf]]].
    assert (Hst : strip s = s) by (subst s; apply cleaned_trimmed).
    assert (Hsc : scrub s = s) by (subst s; apply cleaned_scrubbed).
    assert (Hc : cleaned s = s).
    { unfold cleaned. cbv zeta. rewrite Hst, (Hp s eq_refl). exact Hsc. }
    unfold text_outcome. rewrite Hc, Hst.
    assert (Hn : Text.eqb s [] = false).
    { cbn [existsb] in Hl. rewrite !orb_false_iff in Hl. tauto. }
    rewrite Hn. unfold convert. now rewrite Hl, Hf.
  - exfalso. destruct x as [ | b' | n | f | s | b' | t]; cbn [outcome] in H;
      try discriminate.
    + destruct (is_nan f); discriminate.
    + unfold text_outcome, convert in H.
      repeat match type of H with
             | (if ?c then _ else _) = _ => destruct c
             | match ?c with _ => _ end = _ => destruct c
             end; discriminate.
    + unfold text_outcome, convert in H.
      repeat match type of H with
             | (if ?c then _ else _) = _ => destruct c
             | match ?c with _ => _ end = _ => destruct c
             end; discriminate.
Qed.

Lemma cleaning_twice_changes_nothing_witness :
  clean_currency (VStr (u "n/a")) = Ok (VStr (u "n/a")).
Proof.
  apply (@cleaning_twice_changes_nothing (VStr (u " $n/a ")) (VStr (u "n/a"))).
  - vm_compute. reflexivity.
  - intros s H. injection H as <-. reflexivity.
Defined.

(** ** The minus sign *)

Section MinusSign.

Local Open Scope N_scope.

Lemma replace_minus_map (s : str) :
  replace s unicode_minus (u "-") = List.map ascii_minus s.
Proof.
  unfold replace, ascii_minus. induction s as [|c s IH]; [reflexivity|].
  cbn [flat_map List.map]. rewrite IH. now destruct (c =? unicode_minus).
Qed.

Lemma ascii_minus_cases (c : char) :
  ascii_minus c = c \/ (c = unicode_minus /\ ascii_minus c = 0x2D).
Proof.
  unfold ascii_minus. destruct (c =? unicode_minus) eqn:E; [|now left].
  right. apply N.eqb_eq in E. now split.
Qed.

(** A test that tells neither minus from the other is not changed. *)
Lemma ascii_minus_test (p : char -> bool) (c : char) :
  p unicode_minus = p 0x2D -> p (ascii_minus c) = p c.
Proof.
  intros H. destruct (ascii_minus_cases c) as [E | [-> E]]; rewrite E; congruence.
Qed.

Lemma ascii_minus_idem (c : char) : ascii_minus (ascii_minus c) = ascii_minus c.
Proof.
  destruct (ascii_minus_cases c) as [H | [-> H]]; rewrite !H; reflexivity.
Qed.

Lemma lstrip_minus (s : str) :
  lstrip (List.map ascii_minus s) = List.map ascii_minus (lstrip s).
Proof.
  induction s as [|c s IH]; [reflexivity|]. cbn [List.map lstrip].
  rewrite (ascii_minus_test isspace c eq_refl).
  destruct (isspace c); [exact IH | reflexivity].
Qed.

Lemma strip_minus (s : str) :
  strip (List.map ascii_minus s) = List.map ascii_minus (strip s).
Proof.
  unfold strip, rstrip.
  now rewrite lstrip_minus, <- map_rev, lstrip_minus, map_rev.
Qed.

Lemma startswith_minus (s : str) (c : char) :
  (c =? unicode_minus) = false -> (c =? 0x2D) = false ->
  startswith (List.map ascii_minus s) [c] = startswith s [c].
Proof.
  intros H1 H2. unfold startswith. destruct s as [|a s]; [reflexivity|].
  cbn [List.map is_prefix]. f_equal.
  apply (ascii_minus_test (fun x => c =? x) a). cbv beta.
  rewrite N.eqb_sym in H1. rewrite N.eqb_sym in H2.
  rewrite (N.eqb_sym c unicode_minus), (N.eqb_sym c 0x2D). congruence.
Qed.

Lemma parenthesised_minus (s : str) :
  parenthesised (List.map ascii_minus s) = parenthesised s.
Proof.
  unfold parenthesised, endswith.
  change (rev (u ")")) with [0x29]. change (u "(") with [0x28].
  rewrite <- map_rev.
  change (is_prefix [0x29] (List.map ascii_minus (rev s)))
    with (startswith (List.map ascii_minus (rev s)) [0x29]).
  rewrite !startswith_minus by reflexivity. reflexivity.
Qed.

Lemma removelast_map (A B : Type) (f : A -> B) (l : list A) :
  removelast (List.map f l) = List.map f (removelast l).
Proof.
  induction l as [|a l IH]; [reflexivity|]. cbn [List.map removelast].
  destruct l as [|b l]; [reflexivity|]. cbn [List.map] in *. now rewrite IH.
Qed.

Lemma slice_minus (s : str) :
  slice_1_m1 (List.map ascii_minus s) = List.map ascii_minus (slice_1_m1 s).
Proof.
  unfold slice_1_m1. rewrite <- removelast_map. f_equal.
  now destruct s.
Qed.

Lemma remove_symbols_minus (s : str) :
  remove_symbols (List.map ascii_minus s)
  = List.map ascii_minus (remove_symbols s).
Proof.
  unfold remove_symbols. induction s as [|c s IH]; [reflexivity|].
  cbn [List.map filter].
  rewrite (ascii_minus_test (fun x => negb (existsb (N.eqb x) stripped_symbols)) c eq_refl).
  destruct (negb (existsb (N.eqb c) stripped_symbols)); cbn [List.map]; now rewrite IH.
Qed.

(** Scrubbing does not tell the two minus signs apart. *)
Lemma scrub_minus (s : str) : scrub (List.map ascii_minus s) = scrub s.
Proof.
  unfold scrub. rewrite remove_symbols_minus, !replace_minus_map.
  rewrite map_map. f_equal. apply map_ext. intros c. apply ascii_minus_idem.
Qed.

Lemma text_outcome_minus (s : str) :
  text_outcome (List.map ascii_minus s) = text_outcome s.
Proof.
  unfold text_outcome, cleaned. cbv zeta.
  rewrite strip_minus, parenthesised_minus.
  assert (E : Text.eqb (List.map ascii_minus (strip s)) [] = Text.eqb (strip s) []).
  { now destruct (strip s). }
  rewrite E. destruct (Text.eqb (strip s) []); [reflexivity|].
  f_equal. destruct (parenthesised (strip s)).
  - now rewrite slice_minus, strip_minus, scrub_minus.
  - apply scrub_minus.
Qed.

End MinusSign.

(** X5: the Unicode minus sign is read as the ASCII minus: replacing every
    U+2212 of a text by [-] does not change what the text is cleaned to. *)
Theorem unicode_minus_is_read_as_minus (s : str) :
  clean_currency (VStr (replace s unicode_minus (u "-"))) = clean_currency (VStr s).
Proof.
  rewrite !clean_currency_outcome. cbn [outcome].
  now rewrite replace_minus_map, text_outcome_minus.
Qed.

Section Parentheses.

Lemma negate_missing : negate Missing = Missing.
Proof. reflexivity. Qed.

Lemma convert_negative (s : str) : convert true s = negate (convert false s).
Proof.
  unfold convert.
  destruct (existsb (Text.eqb s) [ []; u "--"; u "-" ]); [reflexivity|].
  now destruct (py_float s).
Qed.

End Parentheses.

(** X6: wrapping a text in parentheses changes the sign of the number it
    is cleaned to and nothing else: a missing value stays missing and a
    rejected text stays the same text.  The text wrapped is not itself in
    parentheses once trimmed. *)
Theorem parentheses_negate_the_outcome (inner : str) :
  parenthesised (strip inner) = false ->
  clean_currency (VStr (u "(" ++ inner ++ u ")"))
  = (v <- clean_currency (VStr inner) ;; Ok (negate v))%py.
Proof.
  intros Hp. rewrite clean_currency_parenthesised, clean_currency_outcome.
  cbn [bind outcome]. f_equal. unfold text_outcome, cleaned. cbv zeta.
  rewrite Hp.
  destruct (Text.eqb (strip inner) []) eqn:E.
  - apply eqb_eq in E. rewrite E. reflexivity.
  - apply convert_negative.
Qed.

Lemma parentheses_negate_the_outcome_witness :
  clean_currency (VStr (u "(" ++ u " $1,234.56" ++ u ")"))
  = (v <- clean_currency (VStr (u " $1,234.56")) ;; Ok (negate v))%py.
Proof.
  apply (@parentheses_negate_the_outcome (u " $1,234.56")). reflexivity.
Defined.

Section AsciiBytes.

Local Open Scope N_scope.

Lemma utf8_ascii (l : list N) :
  forallb (fun b => b <? 0x80) l = true -> utf8_code_points l = Some l.
Proof.
  induction l as [|b l IH]; [reflexivity|]. cbn [forallb utf8_code_points].
  rewrite andb_true_iff. intros [Hb Hl]. rewrite Hb, (IH Hl). reflexivity.
Qed.

End AsciiBytes.

(** X7: a cell of bytes that are all below 0x80 is decoded as UTF-8, to one
    character per byte, and is cleaned as the text of these characters. *)
Theorem ascii_bytes_are_cleaned_as_text (b : list Byte.byte) :
  forallb (fun x => (Byte.to_N x <? 0x80)%N) b = true ->
  decode_utf8 b = Ok (decode_latin1_ignore b)
  /\ clean_currency (VBytes b) = clean_currency (VStr (decode_latin1_ignore b)).
Proof.
  intros H.
  assert (E : decode_utf8 b = Ok (decode_latin1_ignore b)).
  { unfold decode_utf8, decode_latin1_ignore. rewrite utf8_ascii; [reflexivity|].
    clear - H. induction b as [|x b IH]; [reflexivity|].
    cbn [forallb List.map] in *. apply andb_true_iff in H. destruct H as [Hx Hb].
    now rewrite Hx, (IH Hb). }
  split; [exact E|].
  rewrite !clean_currency_outcome. cbn [outcome]. now rewrite E.
Qed.

Lemma ascii_bytes_are_cleaned_as_text_witness :
  decode_utf8 [Byte.x24; Byte.x35] = Ok (u "$5")
  /\ clean_currency (VBytes [Byte.x24; Byte.x35]) = clean_currency (VStr (u "$5")).
Proof.
  apply (@ascii_bytes_are_cleaned_as_text [Byte.x24; Byte.x35]). reflexivity.
Defined.

(** ** Cleaned columns and tables *)

Section Columns.

Lemma apply_clean_map (cells : list value) :
  apply_clean cells = Ok (List.map outcome cells).
Proof.
  induction cells as [|x cells IH]; [reflexivity|].
  cbn [apply_clean List.map]. rewrite clean_currency_outcome, IH. reflexivity.
Qed.

Lemma clean_column_map (cells : list value) :
  clean_column cells = Ok (List.map cell_number cells).
Proof.
  unfold clean_column. rewrite apply_clean_map. cbn [bind].
  now rewrite map_map.
Qed.



Lemma text_eqb_refl (c : str) : Text.eqb c c = true.
Proof. now apply eqb_eq. Qed.


Lemma occurrences_columns (df : frame str) (c : str) :
  List.length (filter (fun col => Text.eqb (fst col) c) df)
  = occurrences c (frame_labels df).
Proof.
  unfold occurrences, frame_labels.
  induction df as [|[a old] df IH]; cbn [filter List.map fst]; [reflexivity|].
  destruct (Text.eqb a c); cbn [List.length]; now rewrite IH.
Qed.

Lemma occurrences_in (c : str) (columns : list str) :
  In c columns -> (1 <= occurrences c columns)%nat.
Proof.
  unfold occurrences. induction columns as [|a columns IH]; cbn [In filter].
  - tauto.
  - intros [-> | H].
    + rewrite text_eqb_refl. cbn [List.length]. lia.
    + destruct (Text.eqb a c); cbn [List.length]; [lia | now apply IH].
Qed.

Lemma get_item_once (df : frame str) (c : str) :
  occurrences c (frame_labels df) = 1%nat ->
  exists cells, get_item df (Some c) = Ok (Series cells).
Proof.
  rewrite <- occurrences_columns. cbn [get_item].
  destruct (filter (fun col => Text.eqb (fst col) c) df) as [|[a cells] [|col rest]];
    try discriminate.
  intros _. now exists cells.
Qed.

Lemma get_item_repeated (df : frame str) (c : str) :
  (2 <= occurrences c (frame_labels df))%nat ->
  exists columns, get_item df (Some c) = Ok (DataFrame columns).
Proof.
  rewrite <- occurrences_columns. cbn [get_item].
  destruct (filter (fun col => Text.eqb (fst col) c) df) as [|[a cells] [|col rest]];
    cbn [List.length]; try lia.
  intros _. eexists. reflexivity.
Qed.

Lemma existsb_columns (df : frame str) (c : str) :
  existsb (fun col => Text.eqb (fst col) c) df
  = existsb (fun c' => Text.eqb c' c) (frame_labels df).
Proof.
  unfold frame_labels. induction df as [|[a old] df IH]; [reflexivity|].
  cbn [existsb List.map fst]. now rewrite IH.
Qed.

Lemma existsb_occurrences (c : str) (columns : list str) :
  existsb (fun c' => Text.eqb c' c) columns = true
  <-> (1 <= occurrences c columns)%nat.
Proof.
  unfold occurrences. induction columns as [|a columns IH]; cbn [existsb filter].
  - cbn [List.length]. split; [discriminate | lia].
  - destruct (Text.eqb a c); cbn [orb List.length]; [|exact IH].
    split; [lia | reflexivity].
Qed.

Lemma filter_set_other (df : frame str) (c c' : str) (cells : list value) :
  c <> c' ->
  filter (fun col => Text.eqb (fst col) c') (set_column df c cells)
  = filter (fun col => Text.eqb (fst col) c') df.
Proof.
  intros Hc. assert (Hcc : Text.eqb c c' = false) by now apply eqb_neq.
  unfold set_column.
  destruct (existsb (fun col => Text.eqb (fst col) c) df).
  - induction df as [|[a old] df IH]; [reflexivity|].
    cbn [List.map filter fst].
    destruct (Text.eqb a c) eqn:E; cbn [fst].
    + apply eqb_eq in E. subst a. now rewrite Hcc.
    + now rewrite IH.
  - rewrite filter_app. cbn [filter fst]. rewrite Hcc. apply app_nil_r.
Qed.

Lemma get_item_set_other (df : frame str) (c c' : str) (cells : list value) :
  c <> c' -> get_item (set_column df c cells) (Some c') = get_item df (Some c').
Proof.
  intros Hc. cbn [get_item]. now rewrite (filter_set_other df cells Hc).
Qed.

Lemma filter_replaced (df : frame str) (c : str) (cells : list value) :
  filter (fun col => Text.eqb (fst col) c)
         (List.map (fun col => if Text.eqb (fst col) c then (fst col, cells) else col) df)
  = List.map (fun col => (fst col, cells))
             (filter (fun col => Text.eqb (fst col) c) df).
Proof.
  induction df as [|[a old] df IH]; [reflexivity|].
  cbn [List.map filter fst].
  destruct (Text.eqb a c) eqn:E; cbn [fst]; rewrite E; cbn [List.map fst];
    now rewrite IH.
Qed.

Lemma get_item_set_same (df : frame str) (c : str) (cells : list value) :
  (occurrences c (frame_labels df) <= 1)%nat ->
  get_item (set_column df c cells) (Some c) = Ok (Series cells).
Proof.
  intros Hocc. cbn [get_item]. unfold set_column.
  destruct (existsb (fun col => Text.eqb (fst col) c) df) eqn:E.
  - rewrite existsb_columns in E. apply existsb_occurrences in E.
    rewrite <- occurrences_columns in Hocc, E. rewrite filter_replaced.
    destruct (filter (fun col => Text.eqb (fst col) c) df) as [|[a old] [|col rest]];
      cbn [List.length] in *; try lia.
    reflexivity.
  - rewrite filter_app. cbn [filter fst]. rewrite text_eqb_refl.
    assert (H0 : filter (fun col => Text.eqb (fst col) c) df = []).
    { rewrite existsb_columns in E.
      destruct (filter (fun col => Text.eqb (fst col) c) df) as [|col rest] eqn:F;
        [reflexivity|].
      assert (Hone : (1 <= occurrences c (frame_labels df))%nat).
      { rewrite <- occurrences_columns, F. cbn [List.length]. lia. }
      apply existsb_occurrences in Hone. congruence. }
    rewrite H0. reflexivity.
Qed.

Lemma labels_set_column (df : frame str) (c : str) (cells : list value) :
  frame_labels (set_column df c cells) = add_label (frame_labels df) c.
Proof.
  unfold set_column, add_label. rewrite existsb_columns.
  destruct (existsb (fun c' => Text.eqb c' c) (frame_labels df)).
  - unfold frame_labels. rewrite map_map. apply map_ext.
    intros [a old]. cbn [fst]. now destruct (Text.eqb a c).
  - unfold frame_labels. rewrite map_app. reflexivity.
Qed.

End Columns.

(** ** The labels the searches find *)

Section Found.

Lemma found_in (p : str -> bool) (cols : list str) (c : str) :
  next_or_none p cols = Some c -> In c cols /\ p c = true.
Proof. apply find_some. Qed.

Lemma resolve_qty_found (cols : list str) (c : str) :
  resolve_qty cols = Some c -> In c cols /\ has "qty" c = true.
Proof. apply found_in. Qed.

Lemma has_part (a b : string) (p1 s1 c : str) :
  u a = p1 ++ u b ++ s1 -> has a c = true -> has b c = true.
Proof.
  intros E H. apply has_spec in H. destruct H as [p2 [s2 H2]].
  apply has_spec. exists (p2 ++ p1), (s1 ++ s2).
  rewrite H2, E, <- !app_assoc. reflexivity.
Qed.

Lemma resolve_retail_found (cols : list str) (c : str) :
  resolve_retail cols = Some c ->
  In c cols /\ has "retail" c = true
  /\ (has "unit retail" c = true \/ has "ext" c = false).
Proof.
  unfold resolve_retail. cbv zeta. rewrite truthy_found by reflexivity.
  destruct (next_or_none (has "unit retail") cols) as [c'|] eqn:E;
    cbn [negb]; intros H.
  - injection H as ->. apply found_in in E. destruct E as [Hin Hp].
    repeat split; [exact Hin | | now left].
    now apply (@has_part "unit retail" "retail" (u "unit ") [] c).
  - apply found_in in H. destruct H as [Hin Hp].
    apply andb_true_iff in Hp. destruct Hp as [Hr He].
    apply negb_true_iff in He. repeat split; [exact Hin | exact Hr | now right].
Qed.

Lemma resolve_ext_cost_found (cols : list str) (c : str) :
  resolve_ext_cost cols = Some c ->
  In c cols /\ has "ext" c = true
  /\ (has "retail" c = true \/ has "cost" c = true).
Proof.
  unfold resolve_ext_cost. cbv zeta. rewrite truthy_found by reflexivity.
  destruct (next_or_none (fun c => has "ext" c && has "retail" c) cols)
    as [c'|] eqn:E; cbn [negb]; intros H.
  - injection H as ->. apply found_in in E. destruct E as [Hin Hp].
    apply andb_true_iff in Hp. destruct Hp as [He Hr]. tauto.
  - apply found_in in H. destruct H as [Hin Hp].
    apply andb_true_iff in Hp. destruct Hp as [Hc He]. tauto.
Qed.

Lemma has_nonempty (needle : string) (c : str) :
  has needle [] = false -> has needle c = true -> truthy (Some c) = true.
Proof. intros H0 H. destruct c; [congruence | reflexivity]. Qed.

(** The truth test of the loader on the three labels is the test that all
    three are found. *)
Lemma gate_all_resolved (cols : list str) :
  forallb truthy [resolve_qty cols; resolve_retail cols; resolve_ext_cost cols]
  = true <-> all_resolved cols.
Proof.
  unfold all_resolved. cbn [forallb]. rewrite !andb_true_iff.
  assert (Hq : truthy (resolve_qty cols) = true <-> resolve_qty cols <> None).
  { destruct (resolve_qty cols) as [c|] eqn:E; [|cbn; split; congruence].
    apply resolve_qty_found in E. destruct E as [_ E].
    rewrite (has_nonempty "qty" c eq_refl E). split; congruence. }
  assert (Hr : truthy (resolve_retail cols) = true <-> resolve_retail cols <> None).
  { destruct (resolve_retail cols) as [c|] eqn:E; [|cbn; split; congruence].
    apply resolve_retail_found in E. destruct E as [_ [E _]].
    rewrite (has_nonempty "retail" c eq_refl E). split; congruence. }
  assert (Hc : truthy (resolve_ext_cost cols) = true <-> resolve_ext_cost cols <> None).
  { destruct (resolve_ext_cost cols) as [c|] eqn:E; [|cbn; split; congruence].
    apply resolve_ext_cost_found in E. destruct E as [_ [E _]].
    rewrite (has_nonempty "ext" c eq_refl E). split; congruence. }
  tauto.
Qed.

End Found.

(** ** The three ways a file is summarised *)

Section Loading.

Lemma parsed_table_inv (file : UploadedFile) (df : frame str) :
  parsed_table file = Ok df ->
  exists raw, read_table file = Ok raw /\ normalize_headers raw = Ok df.
Proof.
  unfold parsed_table. destruct (read_table file) as [raw|]; [|discriminate].
  cbn [bind]. intros H. now exists raw.
Qed.

Lemma parsed_table_raise (file : UploadedFile) (e : exn) :
  parsed_table file = Raise e -> process_file file = Raise e.
Proof.
  unfold parsed_table, process_file.
  destruct (read_table file) as [raw|]; cbn [bind]; [|intros H; congruence].
  destruct (normalize_headers raw); cbn [bind]; [discriminate | intros H; congruence].
Qed.

Lemma process_file_gate (file : UploadedFile) (df : frame str) :
  parsed_table file = Ok df ->
  forallb truthy [resolve_qty (frame_labels df); resolve_retail (frame_labels df);
                  resolve_ext_cost (frame_labels df)] = false ->
  process_file file = Ok (empty_summary file ERROR (MissingColumns (frame_labels df))).
Proof.
  intros Hp Hg. destruct (parsed_table_inv _ Hp) as [raw [Hr Hn]].
  unfold process_file. rewrite Hr. cbn [bind]. rewrite Hn. cbn [bind].
  now rewrite Hg.
Qed.

Lemma has_differ (needle : string) (c c' : str) :
  has needle c = true -> has needle c' = false -> c' <> c.
Proof. congruence. Qed.

Lemma found_once_cases (columns : list str) (cq cr cc : str) :
  resolve_qty columns = Some cq ->
  resolve_retail columns = Some cr ->
  resolve_ext_cost columns = Some cc ->
  (found_once columns = true
   /\ occurrences cq columns = 1%nat /\ occurrences cr columns = 1%nat
   /\ occurrences cc columns = 1%nat)
  \/ (found_once columns = false
      /\ ((2 <= occurrences cq columns)%nat
          \/ (occurrences cq columns = 1%nat /\ (2 <= occurrences cr columns)%nat)
          \/ (occurrences cq columns = 1%nat /\ occurrences cr columns = 1%nat
              /\ (2 <= occurrences cc columns)%nat))).
Proof.
  intros Hq Hr Hc. unfold found_once. rewrite Hq, Hr, Hc. cbn [forallb].
  pose proof (occurrences_in _ _ (proj1 (resolve_qty_found _ Hq))) as H1.
  pose proof (occurrences_in _ _ (proj1 (resolve_retail_found _ Hr))) as H2.
  pose proof (occurrences_in _ _ (proj1 (resolve_ext_cost_found _ Hc))) as H3.
  destruct (Nat.eqb_spec (occurrences cq columns) 1) as [E1|E1]; cbn [andb];
    [|right; split; [reflexivity | left; lia]].
  destruct (Nat.eqb_spec (occurrences cr columns) 1) as [E2|E2]; cbn [andb];
    [|right; split; [reflexivity | right; left; split; [assumption | lia]]].
  destruct (Nat.eqb_spec (occurrences cc columns) 1) as [E3|E3]; cbn [andb].
  - left. now repeat split.
  - right. split; [reflexivity|]. right. right. repeat split; try assumption. lia.
Qed.

(** A file that parses and has the three columns, each under a label that
    stands once, is loaded: the cells of the three columns are read from
    the table as it was parsed, and nothing raises. *)
Lemma process_file_loaded (file : UploadedFile) (df : frame str) (cq cr cc : str) :
  parsed_table file = Ok df ->
  resolve_qty (frame_labels df) = Some cq ->
  resolve_retail (frame_labels df) = Some cr ->
  resolve_ext_cost (frame_labels df) = Some cc ->
  found_once (frame_labels df) = true ->
  exists qc rc ccells,
    get_item df (Some cq) = Ok (Series qc)
    /\ get_item df (Some cr) = Ok (Series rc)
    /\ get_item df (Some cc) = Ok (Series ccells)
    /\ process_file file = Ok (loaded_summary file df qc rc ccells).
Proof.
  intros Hp Hq Hr Hc Ho. destruct (parsed_table_inv _ Hp) as [raw [Hraw Hn]].
  assert (Hg : forallb truthy [resolve_qty (frame_labels df);
                               resolve_retail (frame_labels df);
                               resolve_ext_cost (frame_labels df)] = true).
  { apply gate_all_resolved. unfold all_resolved. rewrite Hq, Hr, Hc.
    repeat split; discriminate. }
  destruct (found_once_cases _ Hq Hr Hc) as [[_ [O1 [O2 O3]]] | [Hf _]];
    [|congruence].
  destruct (resolve_retail_found _ Hr) as [_ [Hrr _]].
  destruct (resolve_ext_cost_found _ Hc) as [_ [Hce _]].
  destruct (get_item_once _ _ O1) as [qc Eq].
  destruct (get_item_once _ _ O2) as [rc Er].
  destruct (get_item_once _ _ O3) as [ccells Ec].
  exists qc, rc, ccells. repeat split; try assumption.
  unfold process_file. rewrite Hraw. cbn [bind]. rewrite Hn. cbn [bind].
  rewrite Hg, Hq, Hr, Hc. cbn [negb].
  rewrite Eq. cbn [bind clean_item]. rewrite clean_column_map. cbn [bind].
  rewrite get_item_set_other by (apply (has_differ "retail" Hrr); reflexivity).
  rewrite Er. cbn [bind clean_item]. rewrite clean_column_map. cbn [bind].
  rewrite !get_item_set_other by (apply (has_differ "ext" Hce); reflexivity).
  rewrite Ec. cbn [bind clean_item]. rewrite clean_column_map. cbn [bind].
  reflexivity.
Qed.

(** When one of the three labels found is repeated, [pd.to_numeric] is
    handed a table and raises. *)
Lemma process_file_refused (file : UploadedFile) (df : frame str) (cq cr cc : str) :
  parsed_table file = Ok df ->
  resolve_qty (frame_labels df) = Some cq ->
  resolve_retail (frame_labels df) = Some cr ->
  resolve_ext_cost (frame_labels df) = Some cc ->
  found_once (frame_labels df) = false ->
  process_file file = Raise (Exn TypeError not_a_column).
Proof.
  intros Hp Hq Hr Hc Ho. destruct (parsed_table_inv _ Hp) as [raw [Hraw Hn]].
  assert (Hg : forallb truthy [resolve_qty (frame_labels df);
                               resolve_retail (frame_labels df);
                               resolve_ext_cost (frame_labels df)] = true).
  { apply gate_all_resolved. unfold all_resolved. rewrite Hq, Hr, Hc.
    repeat split; discriminate. }
  destruct (resolve_retail_found _ Hr) as [_ [Hrr _]].
  destruct (resolve_ext_cost_found _ Hc) as [_ [Hce _]].
  unfold process_file. rewrite Hraw. cbn [bind]. rewrite Hn. cbn [bind].
  rewrite Hg, Hq, Hr, Hc. cbn [negb].
  destruct (found_once_cases _ Hq Hr Hc)
    as [[Hf _] | [_ [R1 | [[O1 R2] | [O1 [O2 R3]]]]]]; [congruence| | |].
  - destruct (get_item_repeated _ _ R1) as [t Et]. rewrite Et. reflexivity.
  - destruct (get_item_once _ _ O1) as [qc Eq].
    rewrite Eq. cbn [bind clean_item]. rewrite clean_column_map. cbn [bind].
    rewrite get_item_set_other by (apply (has_differ "retail" Hrr); reflexivity).
    destruct (get_item_repeated _ _ R2) as [t Et]. rewrite Et. reflexivity.
  - destruct (get_item_once _ _ O1) as [qc Eq].
    destruct (get_item_once _ _ O2) as [rc Er].
    rewrite Eq. cbn [bind clean_item]. rewrite clean_column_map. cbn [bind].
    rewrite get_item_set_other by (apply (has_differ "retail" Hrr); reflexivity).
    rewrite Er. cbn [bind clean_item]. rewrite clean_column_map. cbn [bind].
    rewrite !get_item_set_other by (apply (has_differ "ext" Hce); reflexivity).
    destruct (get_item_repeated _ _ R3) as [t Et]. rewrite Et. reflexivity.
Qed.

(** What [process_file] returns, case by case. *)
Lemma process_file_cases (file : UploadedFile) :
  (exists e, parsed_table file = Raise e /\ process_file file = Raise e)
  \/ (exists df, parsed_table file = Ok df /\ ~ all_resolved (frame_labels df)
        /\ process_file file
           = Ok (empty_summary file ERROR (MissingColumns (frame_labels df))))
  \/ (exists df, parsed_table file = Ok df /\ all_resolved (frame_labels df)
        /\ found_once (frame_labels df) = false
        /\ process_file file = Raise (Exn TypeError not_a_column))
  \/ (exists df qc rc cc, parsed_table file = Ok df /\ all_resolved (frame_labels df)
        /\ found_once (frame_labels df) = true
        /\ process_file file = Ok (loaded_summary file df qc rc cc)).
Proof.
  destruct (parsed_table file) as [df|e] eqn:Hp.
  - right.
    destruct (forallb truthy [resolve_qty (frame_labels df);
                              resolve_retail (frame_labels df);
                              resolve_ext_cost (frame_labels df)]) eqn:Hg.
    + right. pose proof Hg as Ha. apply gate_all_resolved in Ha.
      pose proof Ha as [Hq [Hr Hc]].
      destruct (resolve_qty (frame_labels df)) as [cq|] eqn:Eq; [|congruence].
      destruct (resolve_retail (frame_labels df)) as [cr|] eqn:Er; [|congruence].
      destruct (resolve_ext_cost (frame_labels df)) as [cc|] eqn:Ec; [|congruence].
      destruct (found_once (frame_labels df)) eqn:Ho.
      * right.
        destruct (process_file_loaded _ Hp Eq Er Ec Ho)
          as [qc [rc [ccells [_ [_ [_ H]]]]]].
        exists df, qc, rc, ccells.
        split; [reflexivity|]. split; [exact Ha|]. split; [exact Ho | exact H].
      * left. exists df.
        split; [reflexivity|]. split; [exact Ha|]. split; [exact Ho|].
        now apply (process_file_refused _ Hp Eq Er Ec).
    + left. exists df. repeat split.
      * intros Ha. apply gate_all_resolved in Ha. congruence.
      * now apply process_file_gate.
  - left. exists e. split; [reflexivity | now apply parsed_table_raise].
Qed.

End Loading.

(** ** Batches and the page *)

Section Batch.

Lemma load_single (file : UploadedFile) : load_data [file] = Ok [summary_of file].
Proof. apply (load_data_map [file]). Qed.


Lemma summary_of_cases (file : UploadedFile) :
  (exists e, parsed_table file = Raise e
     /\ summary_of file = empty_summary file CRITICAL_ERROR (ExceptionText (exn_msg e)))
  \/ (exists df, parsed_table file = Ok df /\ ~ all_resolved (frame_labels df)
        /\ summary_of file = empty_summary file ERROR (MissingColumns (frame_labels df)))
  \/ (exists df, parsed_table file = Ok df /\ all_resolved (frame_labels df)
        /\ found_once (frame_labels df) = false
        /\ summary_of file
           = empty_summary file CRITICAL_ERROR (ExceptionText not_a_column))
  \/ (exists df qc rc cc, parsed_table file = Ok df /\ all_resolved (frame_labels df)
        /\ found_once (frame_labels df) = true
        /\ summary_of file = loaded_summary file df qc rc cc).
Proof.
  unfold summary_of.
  destruct (process_file_cases file)
    as [[e [Hp H]] | [[df [Hp [Hn H]]] | [[df [Hp [Ha [Ho H]]]]
                                         | [df [qc [rc [cc [Hp [Ha [Ho H]]]]]]]]]];
    rewrite H.
  - left. now exists e.
  - right. left. now exists df.
  - right. right. left. now exists df.
  - right. right. right. now exists df, qc, rc, cc.
Qed.

Lemma status_ok_loads (file : UploadedFile) :
  Status (summary_of file) = OK <-> loads file.
Proof.
  unfold loads.
  destruct (summary_of_cases file)
    as [[e [Hp H]] | [[df [Hp [Hn H]]] | [[df [Hp [Ha [Ho H]]]]
                                         | [df [qc [rc [cc [Hp [Ha [Ho H]]]]]]]]]];
    rewrite H; cbn [Status empty_summary loaded_summary].
  - split; [discriminate|]. intros [df [Hd _]]. congruence.
  - split; [discriminate|]. intros [df' [Hd [Ha _]]].
    assert (df' = df) by congruence. subst. contradiction.
  - split; [discriminate|]. intros [df' [Hd [_ Ho']]].
    assert (df' = df) by congruence. subst. congruence.
  - split; [|reflexivity]. intros _. now exists df.
Qed.

Lemma valid_packages_app (a b : list Summary) :
  valid_packages (a ++ b) = valid_packages a ++ valid_packages b.
Proof. apply filter_app. Qed.

Lemma loads_dec (file : UploadedFile) : loads file \/ ~ loads file.
Proof.
  destruct (Status (summary_of file)) eqn:E.
  - left. now apply status_ok_loads.
  - right. intros H. apply status_ok_loads in H. congruence.
  - right. intros H. apply status_ok_loads in H. congruence.
Qed.


Lemma valid_packages_nil (files : list UploadedFile) :
  valid_packages (List.map summary_of files) = [] <-> Forall (fun f => ~ loads f) files.
Proof.
  induction files as [|f files IH]; cbn [List.map valid_packages filter].
  - split; [constructor | reflexivity].
  - fold (valid_packages (List.map summary_of files)).
    destruct (Status (summary_of f)) eqn:E.
    + split; [discriminate|]. intros H. inversion H; subst.
      exfalso. apply H2. now apply status_ok_loads.
    + rewrite IH. split.
      * intros H. constructor; [|exact H]. intros Hl.
        apply status_ok_loads in Hl. congruence.
      * intros H. now inversion H.
    + rewrite IH. split.
      * intros H. constructor; [|exact H]. intros Hl.
        apply status_ok_loads in Hl. congruence.
      * intros H. now inversion H.
Qed.

Lemma analysis_screen (st : Settings) (f : UploadedFile) (files : list UploadedFile) :
  analysis st (f :: files)
  = Ok match valid_packages (List.map summary_of (f :: files)) with
       | [] => Warning
       | p :: valid =>
           Dashboard (scenario st (p :: valid)) (List.map (display_row st) (p :: valid))
       end.
Proof.
  unfold analysis. rewrite load_data_map. cbn [bind].
  now destruct (valid_packages (List.map summary_of (f :: files))).
Qed.

End Batch.


Section Loaded.

Lemma summary_of_loaded (file : UploadedFile) (df : frame str) (cq cr cc : str) :
  parsed_table file = Ok df ->
  resolve_qty (frame_labels df) = Some cq ->
  resolve_retail (frame_labels df) = Some cr ->
  resolve_ext_cost (frame_labels df) = Some cc ->
  found_once (frame_labels df) = true ->
  exists qty retail cost,
    get_item df (Some cq) = Ok (Series qty)
    /\ get_item df (Some cr) = Ok (Series retail)
    /\ get_item df (Some cc) = Ok (Series cost)
    /\ summary_of file = loaded_summary file df qty retail cost.
Proof.
  intros Hp Hq Hr Hc Ho.
  destruct (process_file_loaded _ Hp Hq Hr Hc Ho)
    as [qty [retail [cost [H1 [H2 [H3 H]]]]]].
  exists qty, retail, cost. unfold summary_of. now rewrite H.
Qed.

Lemma occurrences_set_other (df : frame str) (c c' : str) (cells : list value) :
  c <> c' ->
  occurrences c' (frame_labels (set_column df c cells))
  = occurrences c' (frame_labels df).
Proof.
  intros Hc. rewrite <- !occurrences_columns. now rewrite (filter_set_other df cells Hc).
Qed.

Lemma as_series_numbers (l : list float) :
  Forall2 (fun v f => to_numeric_coerce v = f) (as_series l) l.
Proof. induction l; constructor; [reflexivity | assumption]. Qed.

Lemma filter_length_le (A : Type) (p : A -> bool) (l : list A) :
  (List.length (filter p l) <= List.length l)%nat.
Proof.
  induction l as [|a l IH]; cbn [filter List.length]; [lia|].
  destruct (p a); cbn [List.length]; lia.
Qed.

Lemma existsb_add_label (L : list str) (c d : str) :
  c <> d ->
  existsb (fun c' => Text.eqb c' d) (add_label L c)
  = existsb (fun c' => Text.eqb c' d) L.
Proof.
  intros Hcd. unfold add_label.
  destruct (existsb (fun c' => Text.eqb c' c) L); [reflexivity|].
  rewrite existsb_app. cbn [existsb].
  assert (E : Text.eqb c d = false) by now apply eqb_neq.
  rewrite E. now rewrite !orb_false_r.
Qed.

Lemma add_labels (cs L : list str) :
  NoDup cs ->
  fold_left add_label cs L
  = L ++ filter (fun c => negb (existsb (fun c' => Text.eqb c' c) L)) cs.
Proof.
  revert L. induction cs as [|c cs IH]; intros L Hn; cbn [fold_left filter].
  - now rewrite app_nil_r.
  - inversion Hn as [|? ? Hc Hcs]; subst. rewrite (IH _ Hcs).
    assert (E : filter (fun d => negb (existsb (fun c' => Text.eqb c' d) (add_label L c))) cs
                = filter (fun d => negb (existsb (fun c' => Text.eqb c' d) L)) cs).
    { apply filter_ext_in. intros d Hd. rewrite existsb_add_label; [reflexivity|].
      intros ->. contradiction. }
    rewrite E. unfold add_label.
    destruct (existsb (fun c' => Text.eqb c' c) L); cbn [negb];
      [reflexivity | now rewrite <- app_assoc].
Qed.

End Loaded.



(** The file whose headers [Qty] and [ Qty] are one label once trimmed:
    the three labels are found, [df['Qty']] is a table of two columns, and
    the summary is a CRITICAL ERROR with the message of [pd.to_numeric]. *)
Lemma repeated_label_is_refused :
  load_data [repeated_qty_csv]
  = Ok [ {| Filename := u "twice.csv";
            Status := CRITICAL_ERROR;
            Details := ExceptionText not_a_column;
            Items := 0; Variety := 0; Total_Cost := 0; Total_Retail := 0;
            Raw_Data := [] |} ].
Proof. vm_compute. reflexivity. Qed.

(** X9: the status of a file's summary tells how far the loading went.  It
    is CRITICAL ERROR, with the text of the exception, when reading the
    file or trimming its headers raised.  For a table that was parsed it is
    ERROR exactly when one of the three searches found no label (the truth
    test on the labels is the test that none of them is [None]); and, in a
    table that repeats none of the four added labels, it is CRITICAL ERROR
    exactly when the three labels were found and one of them is repeated
    ([pd.to_numeric] is then handed a table and raises), and OK exactly when
    they were found and each stands once.  So the cleaning and the sums of
    a column never fail. *)
Theorem status_tells_how_far_loading_went (file : UploadedFile) :
  exists s,
    load_data [file] = Ok [s]
    /\ (forall e, parsed_table file = Raise e ->
          Status s = CRITICAL_ERROR /\ Details s = ExceptionText (exn_msg e))
    /\ (forall df, parsed_table file = Ok df ->
          (Status s = ERROR <-> ~ all_resolved (frame_labels df))
          /\ (added_free (frame_labels df) = true ->
              (Status s = CRITICAL_ERROR <->
               all_resolved (frame_labels df)
               /\ found_once (frame_labels df) = false)
              /\ (Status s = OK <->
                  all_resolved (frame_labels df)
                  /\ found_once (frame_labels df) = true))).
Proof.
  exists (summary_of file). split; [apply load_single|].
  destruct (summary_of_cases file)
    as [[e [Hp H]] | [[df [Hp [Hn H]]] | [[df [Hp [Ha [Ho H]]]]
                                         | [df [qc [rc [cc [Hp [Ha [Ho H]]]]]]]]]];
    rewrite H; cbn [Status Details empty_summary loaded_summary]; split.
  - intros e' He. split; [reflexivity | congruence].
  - intros df Hd. congruence.
  - intros e He. congruence.
  - intros df' Hd. assert (df' = df) by congruence. subst df'.
    split; [tauto|]. intros _. split.
    + split; [discriminate | tauto].
    + split; [discriminate | tauto].
  - intros e He. congruence.
  - intros df' Hd. assert (df' = df) by congruence. subst df'.
    split; [split; [discriminate | tauto]|]. intros _. split.
    + tauto.
    + split; [discriminate|]. intros [_ Ho']. congruence.
  - intros e He. congruence.
  - intros df' Hd. assert (df' = df) by congruence. subst df'.
    split; [split; [discriminate | tauto]|]. intros _. split.
    + split; [discriminate|]. intros [_ Ho']. congruence.
    + tauto.
Qed.

(** X10: a file that parses, whose three labels are found and stand once
    each, in a table that repeats none of the four added labels, gets a
    summary with the status OK and empty details, under its name, whose
    [Variety] is the number of cells of the quantity column of the parsed
    table that are cleaned to a number above 0, at most the number of
    rows. *)
Theorem loaded_file_variety (file : UploadedFile) (df : frame str) (cq : str) :
  parsed_table file = Ok df ->
  resolve_qty (frame_labels df) = Some cq ->
  all_resolved (frame_labels df) ->
  found_once (frame_labels df) = true ->
  added_free (frame_labels df) = true ->
  exists qty Qty s,
    load_data [file] = Ok [s]
    /\ get_item df (Some cq) = Ok (Series qty)
    /\ clean_column qty = Ok Qty
    /\ Filename s = name file /\ Status s = OK /\ Details s = NoDetails
    /\ Variety s = List.length (filter (fun q => 0 <? q) Qty)
    /\ (Variety s <= List.length qty)%nat.
Proof.
  intros Hp Hq [_ [Hr Hc]] Ho _.
  destruct (resolve_retail (frame_labels df)) as [cr|] eqn:Er; [|congruence].
  destruct (resolve_ext_cost (frame_labels df)) as [cc|] eqn:Ec; [|congruence].
  destruct (summary_of_loaded _ Hp Hq Er Ec Ho)
    as [qty [retail [cost [H1 [H2 [H3 H]]]]]].
  exists qty, (List.map cell_number qty), (summary_of file).
  rewrite H. cbn [Filename Status Details Variety loaded_summary].
  rewrite <- H, load_single, clean_column_map.
  repeat split; try assumption.
  rewrite <- (length_map cell_number qty). apply filter_length_le.
Qed.

Lemma loaded_file_variety_witness :
  exists qty Qty s,
    load_data [example_csv] = Ok [s]
    /\ get_item example_frame (Some (u "Qty")) = Ok (Series qty)
    /\ clean_column qty = Ok Qty
    /\ Filename s = name example_csv /\ Status s = OK /\ Details s = NoDetails
    /\ Variety s = List.length (filter (fun q => 0 <? q) Qty)
    /\ (Variety s <= List.length qty)%nat.
Proof.
  apply (@loaded_file_variety example_csv example_frame (u "Qty"));
    try reflexivity.
  repeat split; discriminate.
Defined.

(** X11: the table kept as [Raw_Data] for a loaded file (its three labels
    are found and stand once each, and its table repeats none of the four
    added labels).  The columns [Qty_Clean], [Retail_Clean] and
    [Cost_Clean] are single columns whose cells are, as binary64 numbers,
    the cleaned cells of the quantity, retail and cost columns of the table
    as it was parsed: the columns added on the way hide none of the three.
    [Total_Retail_Value] is a single column; a column under any other label
    is as it was parsed; and the labels are those of the parsed table, in
    their order, followed by those of the four added labels that were not
    among them. *)
Theorem loaded_table_keeps_its_columns
        (file : UploadedFile) (df : frame str) (cq cr cc : str) :
  parsed_table file = Ok df ->
  resolve_qty (frame_labels df) = Some cq ->
  resolve_retail (frame_labels df) = Some cr ->
  resolve_ext_cost (frame_labels df) = Some cc ->
  found_once (frame_labels df) = true ->
  added_free (frame_labels df) = true ->
  exists qty retail cost Qty Retail Cost s,
    load_data [file] = Ok [s]
    /\ get_item df (Some cq) = Ok (Series qty) /\ clean_column qty = Ok Qty
    /\ get_item df (Some cr) = Ok (Series retail)
    /\ clean_column retail = Ok Retail
    /\ get_item df (Some cc) = Ok (Series cost) /\ clean_column cost = Ok Cost
    /\ (exists cells,
          get_item (Raw_Data s) (Some (u "Qty_Clean")) = Ok (Series cells)
          /\ Forall2 (fun v f => to_numeric_coerce v = f) cells Qty)
    /\ (exists cells,
          get_item (Raw_Data s) (Some (u "Retail_Clean")) = Ok (Series cells)
          /\ Forall2 (fun v f => to_numeric_coerce v = f) cells Retail)
    /\ (exists cells,
          get_item (Raw_Data s) (Some (u "Cost_Clean")) = Ok (Series cells)
          /\ Forall2 (fun v f => to_numeric_coerce v = f) cells Cost)
    /\ (exists cells,
          get_item (Raw_Data s) (Some (u "Total_Retail_Value")) = Ok (Series cells))
    /\ (forall c, ~ In c added_labels ->
          get_item (Raw_Data s) (Some c) = get_item df (Some c))
    /\ frame_labels (Raw_Data s)
       = frame_labels df
         ++ filter (fun c => negb (existsb (fun c' => Text.eqb c' c) (frame_labels df)))
              added_labels.
Proof.
  intros Hp Hq Hr Hc Ho Hfree.
  destruct (summary_of_loaded _ Hp Hq Hr Hc Ho)
    as [qty [retail [cost [H1 [H2 [H3 H]]]]]].
  exists qty, retail, cost, (List.map cell_number qty),
    (List.map cell_number retail), (List.map cell_number cost), (summary_of file).
  rewrite H. cbn [Raw_Data loaded_summary].
  rewrite <- H, load_single, !clean_column_map.
  repeat (split; [first [assumption | reflexivity]|]).
  unfold added_free, added_labels in Hfree. cbn [forallb] in Hfree.
  rewrite !andb_true_iff, !Nat.leb_le in Hfree.
  destruct Hfree as [F1 [F2 [F3 [F4 _]]]].
  split; [|split; [|split; [|split; [|split]]]].
  - eexists. split; [|apply as_series_numbers].
    rewrite !get_item_set_other by (intros E; vm_compute in E; discriminate E).
    now apply get_item_set_same.
  - eexists. split; [|apply as_series_numbers].
    rewrite !get_item_set_other by (intros E; vm_compute in E; discriminate E).
    apply get_item_set_same.
    rewrite !occurrences_set_other by (intros E; vm_compute in E; discriminate E).
    exact F2.
  - eexists. split; [|apply as_series_numbers].
    rewrite !get_item_set_other by (intros E; vm_compute in E; discriminate E).
    apply get_item_set_same.
    rewrite !occurrences_set_other by (intros E; vm_compute in E; discriminate E).
    exact F3.
  - eexists. apply get_item_set_same.
    rewrite !occurrences_set_other by (intros E; vm_compute in E; discriminate E).
    exact F4.
  - intros c Hc'. unfold added_labels in Hc'. cbn [In] in Hc'.
    rewrite !get_item_set_other; [reflexivity | | | |]; intros E; apply Hc'; tauto.
  - rewrite !labels_set_column.
    change (fold_left add_label added_labels (frame_labels df)
            = frame_labels df
              ++ filter (fun c => negb (existsb (fun c' => Text.eqb c' c) (frame_labels df)))
                   added_labels).
    apply add_labels.
    repeat constructor; cbn [In]; intros E;
      repeat (destruct E as [E | E]; [vm_compute in E; discriminate E|]); exact E.
Qed.

Lemma loaded_table_keeps_its_columns_witness :
  exists s,
    load_data [example_csv] = Ok [s]
    /\ get_item (Raw_Data s) (Some (u "Unit Retail"))
       = Ok (Series [VStr (u "$5.00"); VStr (u "$10.00")])
    /\ frame_labels (Raw_Data s)
       = [u "Qty"; u "Unit Retail"; u "Ext. Retail"; u "Qty_Clean";
          u "Retail_Clean"; u "Cost_Clean"; u "Total_Retail_Value"].
Proof.
  destruct (@loaded_table_keeps_its_columns example_csv example_frame
              (u "Qty") (u "Unit Retail") (u "Ext. Retail")
              eq_refl eq_refl eq_refl eq_refl eq_refl eq_refl)
    as [qty [retail [cost [Qty [Retail [Cost [s H]]]]]]].
  exists s.
  destruct H as [Hs [_ [_ [_ [_ [_ [_ [_ [_ [_ [_ [Hother Hlabels]]]]]]]]]]]].
  split; [exact Hs|]. split; [|exact Hlabels].
  rewrite Hother; [reflexivity|].
  cbn [In added_labels]. intros E.
  repeat (destruct E as [E | E]; [vm_compute in E; discriminate E|]). exact E.
Defined.

(** ** Division by zero *)

Section Division.

Lemma float_of_nan (x : float) : Prim2SF x = S754_nan -> x = nan.
Proof. intros H. rewrite <- (SF2Prim_Prim2SF x), H. reflexivity. Qed.

Lemma float_of_infinity (x : float) (s : bool) :
  Prim2SF x = S754_infinity s -> x = if s then neg_infinity else infinity.
Proof. intros H. rewrite <- (SF2Prim_Prim2SF x), H. now destruct s. Qed.

Lemma float_is_zero (d : float) :
  (d =? 0) = true -> exists s, Prim2SF d = S754_zero s.
Proof.
  rewrite FloatAxioms.eqb_spec. change (Prim2SF 0) with (S754_zero false).
  destruct (Prim2SF d) as [s | s | | s m e]; try destruct s;
    cbv [SFeqb SFcompare]; try discriminate; intros _; eexists; reflexivity.
Qed.

(** A quotient by zero is infinite or not a number. *)
Lemma div_by_zero (x d : float) :
  (d =? 0) = true -> x / d = nan \/ x / d = infinity \/ x / d = neg_infinity.
Proof.
  intros Hd. destruct (@float_is_zero d Hd) as [sd Hz].
  pose proof (div_spec x d) as H. rewrite Hz in H.
  destruct (Prim2SF x) as [s | s | | s m e]; cbv [SF64div SFdiv] in H.
  - left. now apply float_of_nan.
  - right. apply float_of_infinity in H. destruct (xorb s sd); tauto.
  - left. now apply float_of_nan.
  - right. apply float_of_infinity in H. destruct (xorb s sd); tauto.
Qed.

Lemma percent_of_div_by_zero (x d : float) :
  (d =? 0) = true -> is_finite (x / d * 100) = false.
Proof.
  intros Hd. destruct (@div_by_zero x d Hd) as [-> | [-> | ->]]; vm_compute; reflexivity.
Qed.

End Division.

Section Screens.

Lemma analysis_nonempty (st : Settings) (files : list UploadedFile) :
  files <> [] ->
  analysis st files
  = Ok match valid_packages (List.map summary_of files) with
       | [] => Warning
       | p :: valid =>
           Dashboard (scenario st (p :: valid)) (List.map (display_row st) (p :: valid))
       end.
Proof.
  destruct files as [|f files]; [congruence | intros _; apply analysis_screen].
Qed.

Lemma valid_packages_some (files : list UploadedFile) :
  valid_packages (List.map summary_of files) <> [] <-> Exists loads files.
Proof.
  rewrite valid_packages_nil. split.
  - intros H. induction files as [|f files IH].
    + exfalso. apply H. constructor.
    + destruct (loads_dec f) as [Hl | Hl]; [now left|].
      right. apply IH. intros Hall. apply H. now constructor.
  - intros He Hall. apply Exists_exists in He. destruct He as [f [Hin Hl]].
    rewrite Forall_forall in Hall. exact (Hall f Hin Hl).
Qed.

Lemma summary_not_ok (s : Summary) : Status s <> OK -> valid_packages [s] = [].
Proof.
  unfold valid_packages. cbn [filter]. destruct (Status s); congruence.
Qed.

End Screens.

(** X12: the retail price and the cost are read from one and the same
    column only when its label contains both [unit retail] and [ext], letter
    case apart; each is then found by its first search, without the
    fallback. *)
Theorem retail_and_cost_share_only_an_ext_unit_retail_column
        (cols : list str) (c : str) :
  resolve_retail cols = Some c ->
  resolve_ext_cost cols = Some c ->
  has "unit retail" c = true /\ has "ext" c = true
  /\ resolve_retail cols = next_or_none (has "unit retail") cols
  /\ resolve_ext_cost cols
     = next_or_none (fun c => has "ext" c && has "retail" c) cols.
Proof.
  intros Hr Hc.
  destruct (resolve_retail_found _ Hr) as [_ [Hret Hu]].
  destruct (resolve_ext_cost_found _ Hc) as [_ [He _]].
  assert (Hunit : has "unit retail" c = true) by (destruct Hu; congruence).
  split; [exact Hunit|]. split; [exact He|].
  split.
  - unfold resolve_retail in *. cbv zeta in *.
    destruct (negb (truthy (next_or_none (has "unit retail") cols))) eqn:E;
      [|reflexivity].
    exfalso. apply found_in in Hr. destruct Hr as [_ Hr].
    apply andb_true_iff in Hr. rewrite He in Hr. destruct Hr; discriminate.
  - unfold resolve_ext_cost in *. cbv zeta in *.
    destruct (negb (truthy (next_or_none
                              (fun c => has "ext" c && has "retail" c) cols))) eqn:E;
      [|reflexivity].
    exfalso. apply negb_true_iff in E.
    destruct (next_or_none (fun c => has "ext" c && has "retail" c) cols)
      as [c'|] eqn:E'.
    + apply found_in in E'. destruct E' as [_ E'].
      apply andb_true_iff in E'. destruct E' as [E' _].
      rewrite (has_nonempty "ext" c' eq_refl E') in E. discriminate.
    + apply found_in in Hc. destruct Hc as [Hin _].
      pose proof (find_none _ _ E' c Hin) as Hn. cbv beta in Hn.
      rewrite He, Hret in Hn. discriminate.
Qed.

Lemma retail_and_cost_share_only_an_ext_unit_retail_column_witness :
  has "unit retail" (u "Ext Unit Retail") = true
  /\ has "ext" (u "Ext Unit Retail") = true
  /\ resolve_retail [u "Qty"; u "Ext Unit Retail"]
     = next_or_none (has "unit retail") [u "Qty"; u "Ext Unit Retail"]
  /\ resolve_ext_cost [u "Qty"; u "Ext Unit Retail"]
     = next_or_none (fun c => has "ext" c && has "retail" c)
         [u "Qty"; u "Ext Unit Retail"].
Proof.
  apply (@retail_and_cost_share_only_an_ext_unit_retail_column
           [u "Qty"; u "Ext Unit Retail"] (u "Ext Unit Retail")); reflexivity.
Defined.

(** X13: every summary of a batch is of one of three kinds: OK with empty
    details; ERROR with the message on the missing columns; or CRITICAL
    ERROR with the text of an exception, whatever that text is.  In the last
    two the items, the variety and the cost and retail totals are 0 and the
    table is empty. *)
Theorem unloaded_files_count_for_nothing (files : list UploadedFile) :
  exists out,
    load_data files = Ok out
    /\ Forall (fun s =>
                 (Status s = OK /\ Details s = NoDetails)
                 \/ (((exists found,
                         Status s = ERROR /\ Details s = MissingColumns found)
                      \/ (exists msg,
                            Status s = CRITICAL_ERROR
                            /\ Details s = ExceptionText msg))
                     /\ Items s = 0 /\ Variety s = 0%nat
                     /\ Total_Cost s = 0 /\ Total_Retail s = 0
                     /\ Raw_Data s = [])) out.
Proof.
  exists (List.map summary_of files). split; [apply load_data_map|].
  apply Forall_forall. intros s Hs. apply in_map_iff in Hs.
  destruct Hs as [file [<- _]].
  destruct (summary_of_cases file)
    as [[e [Hp H]] | [[df [Hp [Hn H]]] | [[df [Hp [Ha [Ho H]]]]
                                         | [df [qc [rc [cc [Hp [Ha [Ho H]]]]]]]]]];
    rewrite H.
  - right. cbn. split; [right; eexists; split; reflexivity|]. now repeat split.
  - right. cbn. split; [left; eexists; split; reflexivity|]. now repeat split.
  - right. cbn. split; [right; eexists; split; reflexivity|]. now repeat split.
  - left. split; reflexivity.
Qed.

(** X14: for files whose tables repeat none of the four added labels, the
    page below the uploader is computed without an exception and shows the
    welcome box exactly when no file is uploaded, the warning exactly when
    files are uploaded and none of them is loaded, and the dashboard exactly
    when one file at least is loaded.  A file is loaded when it parses and
    its three labels are found and stand once each.  The figures of the
    dashboard are the scenario over the OK summaries, and the comparison
    table has one row for each of them: one at least, and no more than there
    are files. *)
Theorem analysis_screens (st : Settings) (files : list UploadedFile) :
  forallb regular files = true ->
  exists scr,
    analysis st files = Ok scr
    /\ (scr = Welcome <-> files = [])
    /\ (scr = Warning <-> files <> [] /\ Forall (fun f => ~ loads f) files)
    /\ ((exists m rows, scr = Dashboard m rows) <-> Exists loads files)
    /\ (forall m rows,
          scr = Dashboard m rows ->
          exists out,
            load_data files = Ok out
            /\ m = scenario st (valid_packages out)
            /\ rows = List.map (display_row st) (valid_packages out)
            /\ (0 < List.length rows <= List.length files)%nat).
Proof.
  intros _. destruct files as [|f files].
  - exists Welcome. split; [reflexivity|].
    split; [tauto|]. split; [|split].
    + split; [discriminate | intros [H _]; congruence].
    + split; [intros [m [rows H]]; discriminate | intros H; inversion H].
    + discriminate.
  - rewrite analysis_screen.
    pose proof (valid_packages_nil (f :: files)) as Hnil.
    pose proof (valid_packages_some (f :: files)) as Hsome.
    pose proof (filter_length_le (fun s => match Status s with OK => true | _ => false end)
                  (List.map summary_of (f :: files))) as Hlen.
    fold (valid_packages (List.map summary_of (f :: files))) in Hlen.
    rewrite length_map in Hlen.
    destruct (valid_packages (List.map summary_of (f :: files))) as [|p valid] eqn:E.
    + exists Warning. split; [reflexivity|].
      split; [split; discriminate|].
      split; [split; [intros _; split; [discriminate | now apply Hnil] | reflexivity]|].
      split; [|discriminate].
      split; [intros [m [rows H]]; discriminate|].
      intros H. apply Hsome in H. congruence.
    + eexists. split; [reflexivity|].
      split; [split; discriminate|].
      split.
      { split; [discriminate|]. intros [_ H]. apply Hnil in H. discriminate. }
      split.
      { split; [intros _; apply Hsome; discriminate|].
        intros _. eexists. eexists. reflexivity. }
      intros m rows H. injection H as <- <-.
      exists (List.map summary_of (f :: files)).
      split; [apply load_data_map|]. rewrite E.
      split; [reflexivity|]. split; [reflexivity|].
      cbn [List.length] in *. rewrite length_map. lia.
Qed.

Lemma analysis_screens_witness :
  exists scr,
    analysis plain_settings [example_csv; repeated_qty_csv; name_price_csv] = Ok scr
    /\ (scr = Welcome <-> [example_csv; repeated_qty_csv; name_price_csv] = [])
    /\ (scr = Warning <->
        [example_csv; repeated_qty_csv; name_price_csv] <> []
        /\ Forall (fun f => ~ loads f)
                  [example_csv; repeated_qty_csv; name_price_csv])
    /\ ((exists m rows, scr = Dashboard m rows) <->
        Exists loads [example_csv; repeated_qty_csv; name_price_csv])
    /\ (forall m rows,
          scr = Dashboard m rows ->
          exists out,
            load_data [example_csv; repeated_qty_csv; name_price_csv] = Ok out
            /\ m = scenario plain_settings (valid_packages out)
            /\ rows = List.map (display_row plain_settings) (valid_packages out)
            /\ (0 < List.length rows
                <= List.length [example_csv; repeated_qty_csv; name_price_csv])%nat).
Proof.
  apply (@analysis_screens plain_settings
           [example_csv; repeated_qty_csv; name_price_csv]).
  reflexivity.
Defined.

(** X15: a file that is not loaded changes nothing on the page as long as
    another file is uploaded: the page is that of the batch without it, so
    the file counts neither in the sums nor in the number of packages that
    multiplies the freight and misc costs. *)
Theorem failed_file_changes_no_figure
        (st : Settings) (a b : list UploadedFile) (f : UploadedFile) (s : Summary) :
  load_data [f] = Ok [s] ->
  Status s <> OK ->
  a ++ b <> [] ->
  analysis st (a ++ f :: b) = analysis st (a ++ b).
Proof.
  intros Hs Hst Hab. rewrite load_single in Hs. injection Hs as Hs.
  rewrite !analysis_nonempty by (try exact Hab; destruct a; discriminate).
  rewrite !map_app. cbn [List.map]. rewrite !valid_packages_app.
  change (summary_of f :: List.map summary_of b)
    with ([summary_of f] ++ List.map summary_of b).
  rewrite valid_packages_app, Hs, (@summary_not_ok s Hst). reflexivity.
Qed.

Lemma failed_file_changes_no_figure_witness :
  analysis plain_settings ([example_csv] ++ name_price_csv :: [])
  = analysis plain_settings ([example_csv] ++ []).
Proof.
  apply (@failed_file_changes_no_figure plain_settings [example_csv] []
           name_price_csv
           (empty_summary name_price_csv ERROR (MissingColumns [u "Name"; u "Price"]))).
  - reflexivity.
  - discriminate.
  - discriminate.
Defined.

(** X16: in the comparison table the ROI of a file is divided without a
    guard: when the cost of the file plus the freight and misc costs is
    zero, the ROI is an infinity or NaN, never a finite number. *)
Theorem file_roi_is_not_finite_without_expenses (st : Settings) (p : Summary) :
  (Total_Cost p + freight_cost st + misc_cost st =? 0) = true ->
  is_finite (snd (display_row st p)) = false.
Proof.
  intros H. unfold display_row. cbn [snd]. now apply percent_of_div_by_zero.
Qed.

Lemma file_roi_is_not_finite_without_expenses_witness :
  is_finite (snd (display_row plain_settings
                    (empty_summary example_csv OK NoDetails))) = false.
Proof.
  apply (@file_roi_is_not_finite_without_expenses plain_settings
           (empty_summary example_csv OK NoDetails)).
  reflexivity.
Defined.

(** ** Readers and headers *)

Section Readers.

Lemma endswith_spec (s p : str) :
  endswith s p = true <-> exists base, s = base ++ p.
Proof.
  unfold endswith. rewrite is_prefix_spec. split.
  - intros [suf H]. exists (rev suf).
    rewrite <- (rev_involutive s), H, rev_app_distr, rev_involutive. reflexivity.
  - intros [base ->]. exists (rev base). apply rev_app_distr.
Qed.

Lemma summary_of_read (file file' : UploadedFile) :
  name file' = name file -> read_table file' = read_table file ->
  summary_of file' = summary_of file.
Proof.
  intros Hn Hr. unfold summary_of, process_file, empty_summary.
  rewrite Hr, Hn. reflexivity.
Qed.

Lemma normalize_headers_stops (before after : frame label) (t : str) (cells : list value) :
  forallb (fun col => is_text (fst col)) before = true ->
  normalize_headers (before ++ (LOther t, cells) :: after)
  = Raise (Exn AttributeError (no_strip t)).
Proof.
  induction before as [|[l old] before IH]; cbn [forallb app normalize_headers fst].
  - reflexivity.
  - destruct l as [x|t']; cbn [is_text andb label_strip bind]; [|discriminate].
    intros H. now rewrite (IH H).
Qed.

End Readers.

(** X17: a table with a column label that is not text is not loaded,
    whatever its other columns: the summary is a CRITICAL ERROR whose
    details are the message of the AttributeError that [strip] raises on the
    first such label. *)
Theorem non_text_header_is_a_critical_error
        (file : UploadedFile) (before after : frame label) (t : str)
        (cells : list value) :
  read_table file = Ok (before ++ (LOther t, cells) :: after) ->
  forallb (fun col => is_text (fst col)) before = true ->
  load_data [file]
  = Ok [ {| Filename := name file;
            Status := CRITICAL_ERROR;
            Details := ExceptionText (no_strip t);
            Items := 0; Variety := 0; Total_Cost := 0; Total_Retail := 0;
            Raw_Data := [] |} ].
Proof.
  intros Hr Hb. rewrite load_single. unfold summary_of, process_file.
  rewrite Hr. cbn [bind]. rewrite (@normalize_headers_stops before after t cells Hb).
  reflexivity.
Qed.

Lemma non_text_header_is_a_critical_error_witness :
  load_data [numbered_header_xlsx]
  = Ok [ {| Filename := u "lot.xlsx";
            Status := CRITICAL_ERROR;
            Details := ExceptionText (u "'int' object has no attribute 'strip'");
            Items := 0; Variety := 0; Total_Cost := 0; Total_Retail := 0;
            Raw_Data := [] |} ].
Proof.
  apply (@non_text_header_is_a_critical_error numbered_header_xlsx
           example_table [] (u "int") [VNone; VNone]); reflexivity.
Defined.

(** X18: when the UTF-8 reading of a CSV file raises, the file is
    summarised as if the Latin-1 reading had been its first reading: the
    first exception leaves no trace, and when the second reading raises as
    well the details are the text of the second exception. *)
Theorem failed_utf8_reading_is_replaced_by_latin1 (file : UploadedFile) (e1 : exn) :
  endswith (name file) (u ".csv") = true ->
  read_csv_utf8_sig file = Raise e1 ->
  load_data [file] = load_data [reread_as_latin1 file]
  /\ (forall e2, read_csv_latin1 file = Raise e2 ->
        load_data [file]
        = Ok [empty_summary file CRITICAL_ERROR (ExceptionText (exn_msg e2))]).
Proof.
  intros Hn H1.
  assert (Hr : read_table file = read_csv_latin1 file).
  { rewrite (read_table_csv _ Hn), H1. reflexivity. }
  split.
  - rewrite !load_single. f_equal. f_equal. symmetry.
    apply summary_of_read; [reflexivity|].
    rewrite Hr. unfold read_table, reread_as_latin1. cbn [name read_csv_utf8_sig
      read_csv_latin1 read_excel]. rewrite Hn.
    now destruct (read_csv_latin1 file).
  - intros e2 H2. rewrite load_single. f_equal. f_equal.
    unfold summary_of. rewrite (@read_failure_propagates file e2); [reflexivity|].
    now rewrite Hr.
Qed.

Lemma failed_utf8_reading_is_replaced_by_latin1_witness :
  load_data [latin1_csv] = load_data [reread_as_latin1 latin1_csv]
  /\ (forall e2, read_csv_latin1 latin1_csv = Raise e2 ->
        load_data [latin1_csv]
        = Ok [empty_summary latin1_csv CRITICAL_ERROR (ExceptionText (exn_msg e2))]).
Proof.
  apply (@failed_utf8_reading_is_replaced_by_latin1 latin1_csv
           (Exn UnicodeDecodeError (u "invalid start byte"))); reflexivity.
Defined.

(** X19: the reader is chosen by the exact end of the file name: a name
    that ends with [.csv] is read as CSV, UTF-8 first and Latin-1 if that
    raises; any other name is read by the Excel reader, a name that ends
    with [.CSV] among them. *)
Theorem reader_is_chosen_by_the_exact_suffix (file : UploadedFile) :
  ((exists base, name file = base ++ u ".csv") ->
   read_table file
   = try_except (read_csv_utf8_sig file) (fun _ => read_csv_latin1 file))
  /\ ((forall base, name file <> base ++ u ".csv") ->
      read_table file = read_excel file)
  /\ (forall base, name file = base ++ u ".CSV" ->
      read_table file = read_excel file).
Proof.
  unfold read_table. split; [|split].
  - intros H. apply endswith_spec in H. now rewrite H.
  - intros H. destruct (endswith (name file) (u ".csv")) eqn:E; [|reflexivity].
    apply endswith_spec in E. destruct E as [base E]. now destruct (H base).
  - intros base H. rewrite H. unfold endswith. rewrite rev_app_distr. reflexivity.
Qed.
